(** * The scrape pipeline of [src/app/api/scrape/route.ts]

    A shallow embedding of the request handler [POST] and of the helpers it
    is built from: the catalogue URL template, the two in-page extraction
    functions handed to [page.evaluate], the prompt builder
    [generateDescription], and the nested [try]/[catch] control flow that
    chooses between the success, degraded and hard-failure responses.

    Strings are sequences of code units; the model covers the code units
    0..255 (the Latin-1 part of UTF-16), which is why the accented letters
    of the Spanish prompt are written with their code-unit numbers.
    Calls to [console.log] and [console.error] only write to the server
    log and are left out. *)

From Stdlib Require Import String Ascii List Bool Arith NArith Lia.
Import ListNotations.
Local Open Scope list_scope.
Local Open Scope string_scope.
Set Warnings "-register-all".

(** ** JavaScript values and strings *)

Module Js.

(** A value as [JSON.parse] produces it, plus [undefined], which a
    destructuring pattern yields for a property that is not there.  A
    number carries the text that [ToString] gives for it. *)
Inductive Value : Type :=
| Undefined
| Null
| Boolean (b : bool)
| Number (repr : string)
| Str (s : string)
| Array (elements : list Value)
| Object (properties : list (string * Value)).

(** What a [catch] clause receives: an [Error] object with its [message],
    or some other thrown value, kept as the text [String(value)] gives. *)
Inductive Thrown : Type :=
| ErrorObject (message : string)
| NonError (text : string).

(** [e instanceof Error ? e.message : String(e)] *)
Definition error_text (e : Thrown) : string :=
  match e with
  | ErrorObject message => message
  | NonError text => text
  end.

Definition is_empty (s : string) : bool :=
  match s with
  | EmptyString => true
  | String _ _ => false
  end.

(** [Array.prototype.join] on an array of strings. *)
Fixpoint join (sep : string) (l : list string) : string :=
  match l with
  | [] => EmptyString
  | [x] => x
  | x :: r => x ++ sep ++ join sep r
  end.

(** [ToString], the conversion a template literal applies to each
    interpolated value, for a value that can be converted (see
    [printable] below).  Inside an array, [null] and [undefined] print as
    the empty string. *)
Fixpoint to_string (v : Value) : string :=
  match v with
  | Undefined => "undefined"
  | Null => "null"
  | Boolean true => "true"
  | Boolean false => "false"
  | Number repr => repr
  | Str s => s
  | Array elements =>
      join ","
        (map (fun x => match x with
                       | Undefined | Null => EmptyString
                       | _ => to_string x
                       end) elements)
  | Object _ => "[object Object]"
  end.

(** Whether [ToString] returns for a value.  An object is converted
    through its [toString] property: one that the object owns is a JSON
    value, not a function, and what [Object.prototype.valueOf] then
    gives is the object itself, so the conversion throws a [TypeError];
    an object without it inherits [Object.prototype.toString].  An array
    is joined, which converts each element that is neither [null] nor
    [undefined]. *)
Fixpoint owns (key : string) (properties : list (string * Value)) : bool :=
  match properties with
  | [] => false
  | (k, _) :: r => String.eqb k key || owns key r
  end.

Fixpoint printable (v : Value) : bool :=
  match v with
  | Array elements => forallb printable elements
  | Object properties => negb (owns "toString" properties)
  | _ => true
  end.

(** The message of the [TypeError] that V8 throws then. *)
Definition convert_message : string := "Cannot convert object to primitive value".

(** Property read [v.key] on the value of a parsed body.  Only an object
    can own one of the keys the handler asks for; a primitive or an array
    answers [undefined].  The keys of a parsed object are distinct, so the
    first entry is the only one. *)
Fixpoint lookup (key : string) (properties : list (string * Value)) : option Value :=
  match properties with
  | [] => None
  | (k, v) :: r => if String.eqb k key then Some v else lookup key r
  end.

Definition get (v : Value) (key : string) : Value :=
  match v with
  | Object properties =>
      match lookup key properties with
      | Some x => x
      | None => Undefined
      end
  | _ => Undefined
  end.

(** The white space and line terminators that [String.prototype.trim]
    strips, among the code units 0..255: TAB, LF, VT, FF, CR, SP, NBSP. *)
Definition is_white_space (c : ascii) : bool :=
  existsb (Nat.eqb (nat_of_ascii c)) [9; 10; 11; 12; 13; 32; 160].

Fixpoint trimStart (s : string) : string :=
  match s with
  | EmptyString => EmptyString
  | String c r => if is_white_space c then trimStart r else s
  end.

Fixpoint trimEnd (s : string) : string :=
  match s with
  | EmptyString => EmptyString
  | String c r =>
      let r' := trimEnd r in
      if is_white_space c && is_empty r' then EmptyString else String c r'
  end.

Definition trim (s : string) : string := trimEnd (trimStart s).

(** [a || b] on a string that may be [undefined]: the empty string and
    [undefined] are falsy. *)
Definition or_else (a : option string) (b : string) : string :=
  match a with
  | Some s => if is_empty s then b else s
  | None => b
  end.

(** [s.substring(0, n)] *)
Definition substring0 (n : nat) (s : string) : string := substring 0 n s.

End Js.

(** ** The catalogue URL *)

Definition url_origin : string := "https://www.pro-x.com".

Definition url_category_path : string :=
  "/product-category/engine/pistons-piston-components/piston-kits/".

(** [`https://www.pro-x.com/product-category/engine/pistons-piston-components/piston-kits/yr-${year}/mk-${make}/ml-${model}/`] *)
Definition build_url (year make model : Js.Value) : string :=
  "https://www.pro-x.com/product-category/engine/pistons-piston-components/piston-kits/yr-"
  ++ Js.to_string year ++ "/mk-" ++ Js.to_string make
  ++ "/ml-" ++ Js.to_string model ++ "/".

(** ** The rendered document and the selector queries

    The part of the DOM that the two functions handed to [page.evaluate]
    read: element and text nodes, [querySelectorAll] and [querySelector]
    in document order, [textContent], [getAttribute] and [outerHTML].
    Tag names are the local names of an HTML document, in lower case, and
    class names are compared as they are written (no quirks mode). *)

Module Dom.

Inductive Node : Type :=
| Text (data : string)
| Element (tagName : string) (attributes : list (string * string))
    (childNodes : list Node).

(** An element as a query hands it out: the node together with the chain
    of its ancestors, nearest first.  A selector with a descendant
    combinator looks at that chain. *)
Record Located : Type := locate {
  ancestors : list Node;
  self : Node
}.

(** [element.getAttribute(name)]: [None] stands for [null]. *)
Fixpoint getAttribute (name : string) (attributes : list (string * string))
  : option string :=
  match attributes with
  | [] => None
  | (k, v) :: r => if String.eqb k name then Some v else getAttribute name r
  end.

Definition attribute (name : string) (n : Node) : option string :=
  match n with
  | Text _ => None
  | Element _ attributes _ => getAttribute name attributes
  end.

(** The separators of a [class] attribute: TAB, LF, FF, CR, SP. *)
Definition is_class_separator (c : ascii) : bool :=
  existsb (Nat.eqb (nat_of_ascii c)) [9; 10; 12; 13; 32].

(** The tokens of a [class] attribute; [current] is the token being read. *)
Fixpoint tokens (current : string) (s : string) : list string :=
  match s with
  | EmptyString => if Js.is_empty current then [] else [current]
  | String c r =>
      if is_class_separator c
      then (if Js.is_empty current then tokens EmptyString r
            else current :: tokens EmptyString r)
      else tokens (current ++ String c EmptyString) r
  end.

Definition classList (n : Node) : list string :=
  match attribute "class" n with
  | Some v => tokens EmptyString v
  | None => []
  end.

(** A compound selector: an optional type selector and class selectors,
    as in [h1.page-title]. *)
Record Compound : Type := compound {
  type_selector : option string;
  class_selectors : list string
}.

(** A complex selector: compounds joined by the descendant combinator,
    written left to right, the subject last.  A selector list is a
    comma-separated list of these. *)
Definition Complex : Type := list Compound.
Definition SelectorList : Type := list Complex.

Definition has_class (n : Node) (c : string) : bool :=
  existsb (String.eqb c) (classList n).

Definition matches_compound (c : Compound) (n : Node) : bool :=
  match n with
  | Text _ => false
  | Element tagName _ _ =>
      match type_selector c with
      | Some t => String.eqb t tagName
      | None => true
      end
      && forallb (has_class n) (class_selectors c)
  end.

(** The compounds left of the subject, nearest first, each matched by
    some ancestor further up than the previous one. *)
Fixpoint matches_ancestors (chain : list Node) (cs : list Compound) {struct chain}
  : bool :=
  match cs with
  | [] => true
  | c :: cs' =>
      match chain with
      | [] => false
      | a :: chain' =>
          (matches_compound c a && matches_ancestors chain' cs')
          || matches_ancestors chain' cs
      end
  end.

Definition matches_complex (sel : Complex) (e : Located) : bool :=
  match rev sel with
  | [] => false
  | subject :: left_part =>
      matches_compound subject (self e)
      && matches_ancestors (ancestors e) left_part
  end.

Definition matches (sel : SelectorList) (e : Located) : bool :=
  existsb (fun s => matches_complex s e) sel.

(** The elements of the subtree rooted at [n], in document order, [n]
    itself first. *)
Fixpoint subtree (chain : list Node) (n : Node) : list Located :=
  match n with
  | Text _ => []
  | Element _ _ childNodes =>
      locate chain n :: flat_map (subtree (n :: chain)) childNodes
  end.

(** The descendants of an element, the element itself left out. *)
Definition descendants (e : Located) : list Located :=
  match self e with
  | Text _ => []
  | Element _ _ childNodes =>
      flat_map (subtree (self e :: ancestors e)) childNodes
  end.

(** [element.querySelector(sel)]: the first descendant in document order
    that matches, [None] for [null]. *)
Definition querySelector (sel : SelectorList) (e : Located) : option Located :=
  find (matches sel) (descendants e).

Fixpoint textContent (n : Node) : string :=
  match n with
  | Text data => data
  | Element _ _ childNodes => String.concat EmptyString (map textContent childNodes)
  end.

(** A document as the page functions see it: the root element with the
    element and text nodes under it, which is all that selectors and
    [textContent] look at, and the markup that the engine writes for the
    root.  That markup starts with [<] and the tag name of the root;
    what follows (attributes, children with their escapes, comments, the
    contents of templates, the closing tag) is the engine's and is kept
    as it comes, in [root_markup_tail]. *)
Record Document : Type := document {
  root_tagName : string;
  root_attributes : list (string * string);
  root_childNodes : list Node;
  root_markup_tail : string
}.

Definition documentElement (d : Document) : Node :=
  Element (root_tagName d) (root_attributes d) (root_childNodes d).

(** [document.querySelectorAll(sel)] *)
Definition querySelectorAll (d : Document) (sel : SelectorList) : list Located :=
  filter (matches sel) (subtree [] (documentElement d)).

(** [document.querySelector(sel)] *)
Definition documentQuerySelector (d : Document) (sel : SelectorList)
  : option Located :=
  find (matches sel) (subtree [] (documentElement d)).

(** [document.documentElement.outerHTML] *)
Definition outerHTML (d : Document) : string :=
  "<" ++ root_tagName d ++ root_markup_tail d.

(** *** The markup of a tree of element and text nodes

    How the HTML standard writes a tree that holds nothing but elements
    and text; the sample documents take their markup from it. *)

Definition quote : string := String (ascii_of_nat 34) EmptyString.
Definition nbsp : ascii := ascii_of_nat 160.

Fixpoint escape (attribute_mode : bool) (s : string) : string :=
  match s with
  | EmptyString => EmptyString
  | String c r =>
      (if Ascii.eqb c "&" then "&amp;"
       else if Ascii.eqb c nbsp then "&nbsp;"
       else if Ascii.eqb c "<" then "&lt;"
       else if Ascii.eqb c ">" then "&gt;"
       else if attribute_mode && Ascii.eqb c (ascii_of_nat 34) then "&quot;"
       else String c EmptyString)
      ++ escape attribute_mode r
  end.

Definition void_elements : list string :=
  ["area"; "base"; "basefont"; "bgsound"; "br"; "col"; "embed"; "frame";
   "hr"; "img"; "input"; "keygen"; "link"; "meta"; "param"; "source";
   "track"; "wbr"].

Definition raw_text_elements : list string :=
  ["style"; "script"; "xmp"; "iframe"; "noembed"; "noframes"; "plaintext";
   "noscript"].

Definition mem (s : string) (l : list string) : bool := existsb (String.eqb s) l.

Definition serialize_attributes (attributes : list (string * string)) : string :=
  String.concat EmptyString
    (map (fun kv => " " ++ fst kv ++ "=" ++ quote ++ escape true (snd kv) ++ quote)
         attributes).

(** [raw] says that the parent is an element whose text is written as
    it is. *)
Fixpoint serialize (raw : bool) (n : Node) : string :=
  match n with
  | Text data => if raw then data else escape false data
  | Element tagName attributes childNodes =>
      "<" ++ tagName ++ serialize_attributes attributes ++ ">"
      ++ (if mem tagName void_elements then EmptyString
          else String.concat EmptyString
                 (map (serialize (mem tagName raw_text_elements)) childNodes)
               ++ "</" ++ tagName ++ ">")
  end.

(** What follows [<tagName] in the markup of an element. *)
Definition markup_tail (tagName : string) (attributes : list (string * string))
    (childNodes : list Node) : string :=
  serialize_attributes attributes ++ ">"
  ++ (if mem tagName void_elements then EmptyString
      else String.concat EmptyString
             (map (serialize (mem tagName raw_text_elements)) childNodes)
           ++ "</" ++ tagName ++ ">").

End Dom.

(** ** The two functions evaluated in the page *)

Import Dom.

Record ProductRecord : Type := product_record {
  title : string;
  price : string;
  imageUrl : string
}.

Record PageContent : Type := page_content {
  pc_description : string;
  pc_breadcrumbs : string;
  pc_title : string;
  htmlLength : nat
}.

Definition class_only (c : string) : Compound := compound None [c].
Definition type_only (t : string) : Compound := compound (Some t) [].

(** ['.product'] *)
Definition sel_product : SelectorList := [[class_only "product"]].

(** ['.products .product, ul.products li'] *)
Definition sel_alternative : SelectorList :=
  [[class_only "products"; class_only "product"];
   [compound (Some "ul") ["products"]; type_only "li"]].

(** ['h2, .woocommerce-loop-product__title'] *)
Definition sel_alternative_title : SelectorList :=
  [[type_only "h2"]; [class_only "woocommerce-loop-product__title"]].

(** ['.price, .amount'] *)
Definition sel_alternative_price : SelectorList :=
  [[class_only "price"]; [class_only "amount"]].

(** ['img'] *)
Definition sel_img : SelectorList := [[type_only "img"]].

(** ['.woocommerce-loop-product__title'] *)
Definition sel_title : SelectorList := [[class_only "woocommerce-loop-product__title"]].

(** ['.price'] *)
Definition sel_price : SelectorList := [[class_only "price"]].

(** ['.term-description'] *)
Definition sel_term_description : SelectorList := [[class_only "term-description"]].

(** ['.woocommerce-breadcrumb'] *)
Definition sel_breadcrumb : SelectorList := [[class_only "woocommerce-breadcrumb"]].

(** ['h1.page-title'] *)
Definition sel_page_title : SelectorList := [[compound (Some "h1") ["page-title"]]].

(** [q?.textContent?.trim() || ''] *)
Definition trimmed_text (q : option Located) : string :=
  Js.or_else (option_map (fun e => Js.trim (textContent (self e))) q) EmptyString.

(** [q?.getAttribute('src') || ''] *)
Definition src_of (q : option Located) : string :=
  Js.or_else
    (match q with
     | Some e => attribute "src" (self e)
     | None => None
     end) EmptyString.

(** The callback of [products.map] (lines 88-93). *)
Definition extract_product (product : Located) : ProductRecord :=
  let title := trimmed_text (querySelector sel_title product) in
  let price := trimmed_text (querySelector sel_price product) in
  let imageUrl := src_of (querySelector sel_img product) in
  product_record title price imageUrl.

(** The callback of [alternativeProducts.map] (lines 79-84). *)
Definition extract_alternative (product : Located) : ProductRecord :=
  let title := trimmed_text (querySelector sel_alternative_title product) in
  let price := trimmed_text (querySelector sel_alternative_price product) in
  let imageUrl := src_of (querySelector sel_img product) in
  product_record title price imageUrl.

(** The function of lines 73-94, over the query capability of the
    document it runs in. *)
Definition productInfo_with (querySelectorAll : SelectorList -> list Located)
  : list ProductRecord :=
  let products := querySelectorAll sel_product in
  if (length products =? 0)%nat
  then
    let alternativeProducts := querySelectorAll sel_alternative in
    if (0 <? length alternativeProducts)%nat
    then map extract_alternative alternativeProducts
    else map extract_product products
  else map extract_product products.

Definition productInfo (d : Document) : list ProductRecord :=
  productInfo_with (querySelectorAll d).

(** The function of lines 97-103. *)
Definition pageContent (d : Document) : PageContent :=
  let description := trimmed_text (documentQuerySelector d sel_term_description) in
  let breadcrumbs := trimmed_text (documentQuerySelector d sel_breadcrumb) in
  let title := trimmed_text (documentQuerySelector d sel_page_title) in
  let rawHtml := outerHTML d in
  page_content description breadcrumbs title (String.length rawHtml).

(** ** The prompt *)

Module Prompt.

Definition nl : string := String (ascii_of_nat 10) EmptyString.
Definition a' : string := String (ascii_of_nat 225) EmptyString.
Definition e' : string := String (ascii_of_nat 233) EmptyString.
Definition i' : string := String (ascii_of_nat 237) EmptyString.
Definition o' : string := String (ascii_of_nat 243) EmptyString.
Definition n' : string := String (ascii_of_nat 241) EmptyString.
Definition backslash : string := String (ascii_of_nat 92) EmptyString.

Definition hex_digit (n : nat) : string :=
  String (ascii_of_nat (if (n <? 10)%nat then 48 + n else 87 + n)) EmptyString.

(** One code unit inside a JSON string ([QuoteJSONString]). *)
Definition json_escape (c : ascii) : string :=
  let n := nat_of_ascii c in
  if (n =? 8)%nat then backslash ++ "b"
  else if (n =? 9)%nat then backslash ++ "t"
  else if (n =? 10)%nat then backslash ++ "n"
  else if (n =? 12)%nat then backslash ++ "f"
  else if (n =? 13)%nat then backslash ++ "r"
  else if (n =? 34)%nat then backslash ++ quote
  else if (n =? 92)%nat then backslash ++ backslash
  else if (n <? 32)%nat then backslash ++ "u00" ++ hex_digit (n / 16) ++ hex_digit (n mod 16)
  else String c EmptyString.

Fixpoint json_chars (s : string) : string :=
  match s with
  | EmptyString => EmptyString
  | String c r => json_escape c ++ json_chars r
  end.

Definition json_string (s : string) : string := quote ++ json_chars s ++ quote.

Definition json_product (p : ProductRecord) : string :=
  "{" ++ json_string "title" ++ ":" ++ json_string (title p)
  ++ "," ++ json_string "price" ++ ":" ++ json_string (price p)
  ++ "," ++ json_string "imageUrl" ++ ":" ++ json_string (imageUrl p) ++ "}".

(** [JSON.stringify(productInfo)] *)
Definition stringify (products : list ProductRecord) : string :=
  "[" ++ Js.join "," (map json_product products) ++ "]".

(** The argument [pageContent: { description?: string; title?: string }]. *)
Record PageHint : Type := page_hint {
  hint_description : option string;
  hint_title : option string
}.

Definition basePrompt (year make model : Js.Value) : string :=
  "Genera una descripci" ++ o' ++ "n detallada en espa" ++ n'
  ++ "ol para pistones Pro-X para una motocicleta " ++ Js.to_string make
  ++ " " ++ Js.to_string model ++ " del a" ++ n' ++ "o " ++ Js.to_string year
  ++ "." ++ nl ++ nl
  ++ "La descripci" ++ o' ++ "n debe incluir:" ++ nl
  ++ "1. Caracter" ++ i' ++ "sticas principales de los pistones Pro-X" ++ nl
  ++ "2. Compatibilidad con el modelo espec" ++ i' ++ "fico" ++ nl
  ++ "3. Ventajas de usar pistones Pro-X" ++ nl
  ++ "4. Recomendaciones de instalaci" ++ o' ++ "n generales".

Definition enhancedPrompt (year make model : Js.Value)
    (products : list ProductRecord) (hint : PageHint) (isFallback : bool)
  : string :=
  if isFallback
  then
    basePrompt year make model ++ nl ++ nl
    ++ "Nota: Esta es una descripci" ++ o' ++ "n gen" ++ e'
    ++ "rica ya que no se pudo obtener informaci" ++ o' ++ "n espec" ++ i'
    ++ "fica del producto."
  else
    basePrompt year make model ++ nl ++ nl
    ++ "Informaci" ++ o' ++ "n de la p" ++ a' ++ "gina: "
    ++ Js.or_else (hint_description hint)
         (Js.or_else (hint_title hint) "No disponible")
    ++ nl ++ nl
    ++ "Productos encontrados: " ++ stringify products.

End Prompt.

(** ** Effects: awaited calls, exceptions and the trace of calls

    Every [await] of the handler is a call to a collaborator (the request,
    Playwright, the LM Studio client).  A call either returns or throws;
    the handler's [try]/[catch] blocks decide what happens next.  The
    state threaded through the handler is the trace of calls made so far,
    oldest first. *)

Inductive Event : Type :=
| Launch
| NewContext
| NewPage
| Goto (url : string) (timeout : N)
| WaitForLoadState (state : string)
| Evaluate
| Content
| Close
| LlmModel (name : string)
| Respond (prompt : string).

Definition Trace : Type := list Event.

Inductive Completion (A : Type) : Type :=
| Normal (a : A)
| Throw (e : Js.Thrown).

Arguments Normal {A} a.
Arguments Throw {A} e.

Definition Async (A : Type) : Type := Trace -> Completion A * Trace.

Definition ret {A} (a : A) : Async A := fun t => (Normal a, t).

Definition throw {A} (e : Js.Thrown) : Async A := fun t => (Throw e, t).

Definition bind {A B} (m : Async A) (k : A -> Async B) : Async B :=
  fun t =>
    match m t with
    | (Normal a, t') => k a t'
    | (Throw e, t') => (Throw e, t')
    end.

(** [try { body } catch (e) { handler e }] *)
Definition try_catch {A} (body : Async A) (handler : Js.Thrown -> Async A) : Async A :=
  fun t =>
    match body t with
    | (Normal a, t') => (Normal a, t')
    | (Throw e, t') => handler e t'
    end.

(** A template literal converts the values it interpolates, in turn: the
    first that cannot be converted throws, otherwise the text is built.
    [text] is the text for values that can all be converted. *)
Definition template {A} (values : list Js.Value) (text : A) : Async A :=
  fun t =>
    (if forallb Js.printable values then Normal text
     else Throw (Js.ErrorObject Js.convert_message), t).

(** A call to a collaborator: it is recorded, then it returns or throws. *)
Definition call {A} (ev : Event) (outcome : Completion A) : Async A :=
  fun t => (outcome, t ++ [ev])%list.

Notation "x <- m ;; k" := (bind m (fun x => k))
  (at level 61, m at next level, right associativity).
Notation "m ;;; k" := (bind m (fun _ => k))
  (at level 61, right associativity).

Definition is_close (ev : Event) : bool :=
  match ev with Close => true | _ => false end.
Definition is_evaluate (ev : Event) : bool :=
  match ev with Evaluate => true | _ => false end.
Definition is_llm_model (ev : Event) : bool :=
  match ev with LlmModel _ => true | _ => false end.
Definition is_respond (ev : Event) : bool :=
  match ev with Respond _ => true | _ => false end.
Definition is_launch (ev : Event) : bool :=
  match ev with Launch => true | _ => false end.

(** How many calls of a kind the trace holds. *)
Definition calls (kind : Event -> bool) (t : Trace) : nat :=
  length (filter kind t).

(** What the collaborators answer.  Calls that the handler can make more
    than once ([browser.close], [client.llm.model], [llmModel.respond],
    [page.evaluate]) are answered by the number of earlier calls of the
    same kind; [respond] also sees the prompt.  The document is the one
    the page holds once navigation has settled. *)
Record World : Type := world {
  w_launch : Completion unit;
  w_newContext : Completion unit;
  w_newPage : Completion unit;
  w_goto : string -> Completion unit;
  w_waitForLoadState : Completion unit;
  w_document : Document;
  w_evaluate : nat -> Completion unit;
  w_content : Completion string;
  w_close : nat -> Completion unit;
  w_llm_model : nat -> Completion unit;
  w_respond : nat -> string -> Completion string
}.

(** ** The responses *)

(** The three object literals handed to [NextResponse.json].  The
    degraded one also carries [scrapingError: true]. *)
Inductive Response : Type :=
| Success (description : string) (products : list ProductRecord)
    (pageInfo : PageContent) (url : string) (htmlPreview : string)
| Degraded (description : string) (errorDetails : string) (url : string)
| HardFailure (error : string) (details : string).

Section Handler.

Variable w : World.

(** [chromium.launch({ headless: true })] *)
Definition launch : Async unit := call Launch (w_launch w).

(** [browser.newContext()] *)
Definition newContext : Async unit := call NewContext (w_newContext w).

(** [context.newPage()] *)
Definition newPage : Async unit := call NewPage (w_newPage w).

(** [page.goto(url, { timeout })] *)
Definition goto (url : string) (timeout : N) : Async unit :=
  call (Goto url timeout) (w_goto w url).

(** [page.waitForLoadState(state)] *)
Definition waitForLoadState (state : string) : Async unit :=
  call (WaitForLoadState state) (w_waitForLoadState w).

(** [page.evaluate(f)]: [f] runs in the page on its document. *)
Definition evaluate {A} (f : Document -> A) : Async A :=
  fun t =>
    call Evaluate
      (match w_evaluate w (calls is_evaluate t) with
       | Normal _ => Normal (f (w_document w))
       | Throw e => Throw e
       end) t.

(** [page.content()] *)
Definition content : Async string := call Content (w_content w).

(** [browser.close()] *)
Definition close : Async unit :=
  fun t => call Close (w_close w (calls is_close t)) t.

Definition model_name : string := "oh-dcft-v3.1-claude-3-5-sonnet-20241022".

(** [new LMStudioClient()] followed by [client.llm.model(name)] *)
Definition llm_model (name : string) : Async unit :=
  fun t => call (LlmModel name) (w_llm_model w (calls is_llm_model t)) t.

(** [llmModel.respond(prompt)], then [result.content] *)
Definition respond (prompt : string) : Async string :=
  fun t => call (Respond prompt) (w_respond w (calls is_respond t) prompt) t.

(** Lines 16-46.  The template literal of [basePrompt] interpolates the
    make, the model and the year. *)
Definition generateDescription (year make model : Js.Value)
    (products : list ProductRecord) (hint : Prompt.PageHint) (isFallback : bool)
  : Async string :=
  enhancedPrompt <-
    template [make; model; year]
      (Prompt.enhancedPrompt year make model products hint isFallback) ;;
  result_content <- respond enhancedPrompt ;;
  ret result_content.

(** The message V8 gives when a destructuring pattern meets [null]. *)
Definition destructure_null_message : string :=
  "Cannot destructure property 'year' of '(intermediate value)' as it is null.".

(** [const { year, make, model } = body] *)
Definition destructure (body : Js.Value) : Async (Js.Value * Js.Value * Js.Value) :=
  match body with
  | Js.Undefined | Js.Null => throw (Js.ErrorObject destructure_null_message)
  | _ => ret (Js.get body "year", Js.get body "make", Js.get body "model")
  end.

(** Lines 48-170.  [request] is what [await request.json()] comes to. *)
Definition POST (request : Completion Js.Value) : Async Response :=
  try_catch
    (body <- (fun t => (request, t)) ;;
     fields <- destructure body ;;
     let '(year, make, model) := fields in
     url <- template [year; make; model] (build_url year make model) ;;
     launch ;;;
     newContext ;;;
     newPage ;;;
     try_catch
       (goto url 30000%N ;;;
        waitForLoadState "networkidle" ;;;
        productInfo <- evaluate productInfo ;;
        pageContent <- evaluate pageContent ;;
        htmlContent <- content ;;
        let htmlPreview := Js.substring0 500 htmlContent ++ "..." in
        close ;;;
        llm_model model_name ;;;
        description <-
          generateDescription year make model productInfo
            (Prompt.page_hint (Some (pc_description pageContent))
                              (Some (pc_title pageContent)))
            false ;;
        ret (Success description productInfo pageContent url htmlPreview))
       (fun scrapingError =>
        close ;;;
        llm_model model_name ;;;
        description <-
          generateDescription year make model [] (Prompt.page_hint None None) true ;;
        ret (Degraded description (Js.error_text scrapingError) url)))
    (fun error =>
       ret (HardFailure "Error al realizar el scraping" (Js.error_text error))).

End Handler.

(** The HTTP status: [NextResponse.json] answers 200 unless told
    otherwise, and only the outer [catch] passes [{ status: 500 }]. *)
Definition status (r : Response) : nat :=
  match r with
  | Success _ _ _ _ _ => 200
  | Degraded _ _ _ => 200
  | HardFailure _ _ => 500
  end.

(** The fields of the response body, as a client reads them: [None] is a
    key that the object literal does not have. *)
Definition field_description (r : Response) : option string :=
  match r with
  | Success d _ _ _ _ => Some d
  | Degraded d _ _ => Some d
  | HardFailure _ _ => None
  end.

Definition field_products (r : Response) : option (list ProductRecord) :=
  match r with
  | Success _ p _ _ _ => Some p
  | _ => None
  end.

Definition field_pageInfo (r : Response) : option PageContent :=
  match r with
  | Success _ _ i _ _ => Some i
  | _ => None
  end.

Definition field_url (r : Response) : option string :=
  match r with
  | Success _ _ _ u _ => Some u
  | Degraded _ _ u => Some u
  | HardFailure _ _ => None
  end.

Definition field_htmlPreview (r : Response) : option string :=
  match r with
  | Success _ _ _ _ h => Some h
  | _ => None
  end.

Definition field_scrapingError (r : Response) : option bool :=
  match r with
  | Degraded _ _ _ => Some true
  | _ => None
  end.

Definition field_errorDetails (r : Response) : option string :=
  match r with
  | Degraded _ e _ => Some e
  | _ => None
  end.

Definition field_error (r : Response) : option string :=
  match r with
  | HardFailure e _ => Some e
  | _ => None
  end.

Definition field_details (r : Response) : option string :=
  match r with
  | HardFailure _ d => Some d
  | _ => None
  end.

(** One request from start to finish: the handler runs on an empty
    trace. *)
Definition run (w : World) (request : Completion Js.Value)
  : Completion Response * Trace :=
  POST w request [].

(** ** The stages of the handler

    The blocks of [POST], named so that statements can speak of "the
    render stage" and "synthesis".  [POST_staged] below shows that the
    handler is these blocks put together. *)

Definition error_message : string := "Error al realizar el scraping".

(** Lines 58-60: the renderer resource. *)
Definition acquire (w : World) : Async unit :=
  launch w ;;; newContext w ;;; newPage w.

(** Lines 63-106: navigation, settling, the two evaluations and the
    markup. *)
Definition render_stage (w : World) (url : string)
  : Async (list ProductRecord * PageContent * string) :=
  goto w url 30000%N ;;;
  waitForLoadState w "networkidle" ;;;
  products <- evaluate w productInfo ;;
  info <- evaluate w pageContent ;;
  htmlContent <- content w ;;
  ret (products, info, htmlContent).

(** Lines 112-125 and 137-151: the browser is closed, then the model is
    fetched and asked. *)
Definition close_and_describe (w : World) (year make model : Js.Value)
    (products : list ProductRecord) (hint : Prompt.PageHint) (isFallback : bool)
  : Async string :=
  close w ;;;
  llm_model w model_name ;;;
  generateDescription w year make model products hint isFallback.

(** Line 107. *)
Definition preview (htmlContent : string) : string :=
  Js.substring0 500 htmlContent ++ "...".

(** The inner [catch] block followed by the outer one. *)
Definition fallback_stage (w : World) (year make model : Js.Value) (url : string)
    (scrapingError : Js.Thrown) (t : Trace) : Completion Response * Trace :=
  match close_and_describe w year make model [] (Prompt.page_hint None None) true t with
  | (Normal description, t') =>
      (Normal (Degraded description (Js.error_text scrapingError) url), t')
  | (Throw error, t') =>
      (Normal (HardFailure error_message (Js.error_text error)), t')
  end.

Definition acquired : Trace := [Launch; NewContext; NewPage].

(** The renderer resource could be acquired. *)
Definition acquisition_succeeds (w : World) : Prop :=
  w_launch w = Normal tt /\ w_newContext w = Normal tt /\ w_newPage w = Normal tt.

(** The render and extraction stage succeeds with these results. *)
Definition render_succeeds (w : World) (url : string)
    (products : list ProductRecord) (info : PageContent) (htmlContent : string)
  : Prop :=
  fst (render_stage w url acquired) = Normal (products, info, htmlContent).

(** The render stage fails with this error: navigation, the wait for
    network idle, an evaluation or the read of the markup throws. *)
Definition render_fails (w : World) (url : string) (e : Js.Thrown) : Prop :=
  fst (render_stage w url acquired) = Throw e.

(** The body that the form of the search page posts:
    [JSON.stringify({ year, make, model })], parsed back. *)
Definition query_body (year make model : string) : Js.Value :=
  Js.Object [("year", Js.Str year); ("make", Js.Str make); ("model", Js.Str model)].

(** The URL for a query whose fields are strings. *)
Definition query_url (year make model : string) : string :=
  build_url (Js.Str year) (Js.Str make) (Js.Str model).

(** A body from which the three fields can be read: anything that
    [JSON.parse] yields except [null]. *)
Definition destructurable (body : Js.Value) : Prop :=
  body <> Js.Null /\ body <> Js.Undefined.

(** Three values that a template literal can write: none is an object
    that owns a [toString] key, or an array that holds one. *)
Definition convertible (year make model : Js.Value) : Prop :=
  Js.printable year = true /\ Js.printable make = true
  /\ Js.printable model = true.

(** A body whose three fields the template literals can write. *)
Definition interpolable (body : Js.Value) : Prop :=
  convertible (Js.get body "year") (Js.get body "make") (Js.get body "model").

(** The URL that the handler builds from a body. *)
Definition body_url (body : Js.Value) : string :=
  build_url (Js.get body "year") (Js.get body "make") (Js.get body "model").

(** The prompt of the fallback branch (lines 143-151). *)
Definition fallback_prompt (body : Js.Value) : string :=
  Prompt.enhancedPrompt (Js.get body "year") (Js.get body "make")
    (Js.get body "model") [] (Prompt.page_hint None None) true.

(** The prompt of the success branch (lines 118-125). *)
Definition enriched_prompt (body : Js.Value) (products : list ProductRecord)
    (info : PageContent) : string :=
  Prompt.enhancedPrompt (Js.get body "year") (Js.get body "make")
    (Js.get body "model") products
    (Prompt.page_hint (Some (pc_description info)) (Some (pc_title info))) false.

(** The response of a request, and the calls it made. *)
Definition answer (w : World) (request : Completion Js.Value) : option Response :=
  match fst (run w request) with
  | Normal r => Some r
  | Throw _ => None
  end.

Definition trace_of (w : World) (request : Completion Js.Value) : Trace :=
  snd (run w request).

(** The backend has produced this description: the model was fetched by
    some call and some prompt was answered with it. *)
Definition backend_replied (w : World) (description : string) : Prop :=
  exists m u n prompt,
    w_llm_model w m = Normal u /\ w_respond w n prompt = Normal description.

(** The backend is down: the model can never be fetched, or no prompt is
    ever answered. *)
Definition backend_unavailable (w : World) : Prop :=
  (forall m, exists e, w_llm_model w m = Throw e)
  \/ (forall n prompt, exists e, w_respond w n prompt = Throw e).

(** The first synthesis of a request throws: the model cannot be fetched,
    or it is there and the prompt is not answered. *)
Definition synthesis_throws (w : World) (prompt : string) (e : Js.Thrown) : Prop :=
  w_llm_model w 0 = Throw e
  \/ (w_llm_model w 0 = Normal tt /\ w_respond w 0 prompt = Throw e).

(** ** The form

    The three inputs of the page carry [required]: the browser does not
    fire [onSubmit] while one of them is empty.  [handleSubmit] then posts
    the three values. *)
Module Form.

Definition required (value : string) : bool := negb (Js.is_empty value).

Definition submit (year make model : string) : option Js.Value :=
  if required year && required make && required model
  then Some (query_body year make model)
  else None.

End Form.

(** ** Sample documents and collaborators *)

Module Samples.

Definition el (tagName class : string) (childNodes : list Node) : Node :=
  Element tagName (if Js.is_empty class then [] else [("class", class)]) childNodes.

(** A product card of the primary tier, with or without a price element. *)
Definition card (name : string) (cost : option string) : Node :=
  el "li" "product type-product"
    ([el "h2" "woocommerce-loop-product__title" [Text name]]
     ++ match cost with
        | Some c => [el "span" "price" [Text c]]
        | None => []
        end
     ++ [Element "img" [("src", "/kit.png")] []])%list.

(** An [html] document of elements and text, with the markup of its
    tree. *)
Definition page (attributes : list (string * string)) (childNodes : list Node)
  : Document :=
  document "html" attributes childNodes (markup_tail "html" attributes childNodes).

(** Two cards under the primary selector, the second without a price. *)
Definition two_cards : Document :=
  page []
    [el "body" EmptyString
       [el "ul" "products"
          [card " Piston Kit A " (Some "$199.00"); card "Piston Kit B" None]]].

(** No [.product] element, one list item under [ul.products]. *)
Definition list_items_only : Document :=
  page []
    [el "body" EmptyString
       [el "ul" "products"
          [el "li" EmptyString
             [el "h2" EmptyString [Text "Ring Set"];
              el "span" "amount" [Text " $35.00 "]]]]].

(** Nothing under either tier, a page title only. *)
Definition empty_catalogue : Document :=
  page []
    [el "body" EmptyString [el "h1" "page-title" [Text "Piston Kits"]]].

Definition markup : string := "<!DOCTYPE html><html><body></body></html>".

(** Every collaborator answers; the backend replies [reply]. *)
Definition steady (d : Document) (reply : string) : World :=
  world (Normal tt) (Normal tt) (Normal tt) (fun _ => Normal tt) (Normal tt) d
    (fun _ => Normal tt) (Normal markup) (fun _ => Normal tt)
    (fun _ => Normal tt) (fun _ _ => Normal reply).

Definition timeout_error : Js.Thrown :=
  Js.ErrorObject "page.goto: Timeout 30000ms exceeded.".

Definition refused : Js.Thrown := Js.ErrorObject "connect ECONNREFUSED 127.0.0.1:1234".

(** Navigation runs into the timeout; the backend replies [reply]. *)
Definition navigation_timeout (reply : string) : World :=
  world (Normal tt) (Normal tt) (Normal tt) (fun _ => Throw timeout_error)
    (Normal tt) empty_catalogue (fun _ => Normal tt) (Normal markup)
    (fun _ => Normal tt) (fun _ => Normal tt) (fun _ _ => Normal reply).

(** Navigation runs into the timeout and the backend is down. *)
Definition timeout_and_backend_down : World :=
  world (Normal tt) (Normal tt) (Normal tt) (fun _ => Throw timeout_error)
    (Normal tt) empty_catalogue (fun _ => Normal tt) (Normal markup)
    (fun _ => Normal tt) (fun _ => Normal tt) (fun _ _ => Throw refused).

(** The page renders; every call to the backend throws. *)
Definition backend_down (d : Document) : World :=
  world (Normal tt) (Normal tt) (Normal tt) (fun _ => Normal tt) (Normal tt) d
    (fun _ => Normal tt) (Normal markup) (fun _ => Normal tt)
    (fun _ => Normal tt) (fun _ _ => Throw refused).

(** The page renders; the first call to the backend throws, the second
    replies. *)
Definition backend_hiccup (d : Document) (reply : string) : World :=
  world (Normal tt) (Normal tt) (Normal tt) (fun _ => Normal tt) (Normal tt) d
    (fun _ => Normal tt) (Normal markup) (fun _ => Normal tt)
    (fun _ => Normal tt)
    (fun n _ => match n with O => Throw refused | S _ => Normal reply end).

(** The browser starts, but no context can be created. *)
Definition no_context : World :=
  world (Normal tt) (Throw (Js.ErrorObject "browser.newContext: Target closed"))
    (Normal tt) (fun _ => Normal tt) (Normal tt) empty_catalogue
    (fun _ => Normal tt) (Normal markup) (fun _ => Normal tt)
    (fun _ => Normal tt) (fun _ _ => Normal "Pistones Pro-X").

Definition honda : Js.Value := query_body "2022" "honda" "crf-250-r".

(** A body whose year cannot be written by a template literal:
    [{"year":{"toString":1},"make":"honda","model":"crf-250-r"}]. *)
Definition year_with_toString : Js.Value :=
  Js.Object [("year", Js.Object [("toString", Js.Number "1")]);
             ("make", Js.Str "honda"); ("model", Js.Str "crf-250-r")].

Definition honda_url : string :=
  "https://www.pro-x.com/product-category/engine/pistons-piston-components/piston-kits/yr-2022/mk-honda/ml-crf-250-r/".

(** The first card of the sample page, with its price element. *)
Definition card_with_price : Located :=
  locate
    [el "ul" "products"
       [card " Piston Kit A " (Some "$199.00"); card "Piston Kit B" None];
     el "body" EmptyString
       [el "ul" "products"
          [card " Piston Kit A " (Some "$199.00"); card "Piston Kit B" None]];
     documentElement two_cards]
    (card " Piston Kit A " (Some "$199.00")).

(** The second card of the sample page has no price element. *)
Definition card_without_price : Located :=
  locate
    [el "ul" "products"
       [card " Piston Kit A " (Some "$199.00");
        card "Piston Kit B" None];
     el "body" EmptyString
       [el "ul" "products"
          [card " Piston Kit A " (Some "$199.00");
           card "Piston Kit B" None]];
     documentElement two_cards]
    (card "Piston Kit B" None).

End Samples.

(** ** The response on the wire

    [NextResponse.json(obj, init)] sends the object as JSON with a status;
    [response.json()] on the other side reads it back.  A body is the
    object with its nine possible keys, [None] for a key that is absent
    (a key whose value is [undefined] is not written). *)

Record Body : Type := body_fields {
  b_description : option string;
  b_products : option (list ProductRecord);
  b_pageInfo : option PageContent;
  b_url : option string;
  b_htmlPreview : option string;
  b_scrapingError : option bool;
  b_errorDetails : option string;
  b_error : option string;
  b_details : option string
}.

Record HttpResponse : Type := http {
  http_status : nat;
  http_body : Body
}.

(** The three calls to [NextResponse.json] of [route.ts] (lines 127-133,
    153-158 and 162-168). *)
Definition json_response (r : Response) : HttpResponse :=
  match r with
  | Success description products pageInfo url htmlPreview =>
      http 200
        (body_fields (Some description) (Some products) (Some pageInfo)
           (Some url) (Some htmlPreview) None None None None)
  | Degraded description errorDetails url =>
      http 200
        (body_fields (Some description) None None (Some url) None
           (Some true) (Some errorDetails) None None)
  | HardFailure error details =>
      http 500
        (body_fields None None None None None None None
           (Some error) (Some details))
  end.

(** ** The refactored copy of the handler

    The second copy of the route (the one with [createErrorResponse] and
    [getLLMModel]) names its constants and builds its error response and
    its model handle in helpers. *)

Module Refactored.

Definition LM_STUDIO_MODEL : string := "oh-dcft-v3.1-claude-3-5-sonnet-20241022".

Definition SCRAPING_TIMEOUT : N := 30000.

(** [createErrorResponse(message, details?, status = 500)] *)
Definition createErrorResponse (message : string) (details : option string)
    (status : option nat) : HttpResponse :=
  http (match status with Some s => s | None => 500 end)
    (body_fields None None None None None None None (Some message) details).

(** [getLLMModel()] *)
Definition getLLMModel (w : World) : Async unit :=
  llm_model w LM_STUDIO_MODEL.

(** The handler of the refactored copy. *)
Definition POST (w : World) (request : Completion Js.Value) : Async HttpResponse :=
  try_catch
    (body <- (fun t => (request, t)) ;;
     fields <- destructure body ;;
     let '(year, make, model) := fields in
     url <- template [year; make; model] (build_url year make model) ;;
     launch w ;;;
     newContext w ;;;
     newPage w ;;;
     try_catch
       (goto w url SCRAPING_TIMEOUT ;;;
        waitForLoadState w "networkidle" ;;;
        productInfo <- evaluate w productInfo ;;
        pageContent <- evaluate w pageContent ;;
        htmlContent <- content w ;;
        let htmlPreview := Js.substring0 500 htmlContent ++ "..." in
        close w ;;;
        getLLMModel w ;;;
        description <-
          generateDescription w year make model productInfo
            (Prompt.page_hint (Some (pc_description pageContent))
                              (Some (pc_title pageContent)))
            false ;;
        ret (http 200
               (body_fields (Some description) (Some productInfo)
                  (Some pageContent) (Some url) (Some htmlPreview)
                  None None None None)))
       (fun scrapingError =>
        close w ;;;
        getLLMModel w ;;;
        description <-
          generateDescription w year make model [] (Prompt.page_hint None None)
            true ;;
        ret (http 200
               (body_fields (Some description) None None (Some url) None
                  (Some true) (Some (Js.error_text scrapingError)) None None))))
    (fun error =>
       ret (createErrorResponse "Error al realizar el scraping"
              (Some (Js.error_text error)) None)).

End Refactored.

(** ** The search page

    The component [Home] with its form state, its result state and
    [handleSubmit]; the copy that keeps the result in one [ResultState]
    object. *)

Module Page.

Record FormState : Type := form_state {
  year : string;
  make : string;
  model : string
}.

Record ResultState : Type := result_state {
  description : string;
  products : list ProductRecord;
  pageInfo : option PageContent;
  url : string;
  error : string
}.

Definition INITIAL_FORM_STATE : FormState := form_state "2022" "honda" "crf-250-r".

Definition INITIAL_RESULT_STATE : ResultState :=
  result_state EmptyString [] None EmptyString EmptyString.

(** [keyof FormState] *)
Inductive Field : Type := Year | Make | Model.

(** [updateFormField(field)(value)], as the update it hands to
    [setFormState]: [(prev) => ({ ...prev, [field]: value })]. *)
Definition updateFormField (field : Field) (value : string) (prev : FormState)
  : FormState :=
  match field with
  | Year => form_state value (make prev) (model prev)
  | Make => form_state (year prev) value (model prev)
  | Model => form_state (year prev) (make prev) value
  end.

(** [formState[field]] *)
Definition read (field : Field) (s : FormState) : string :=
  match field with
  | Year => year s
  | Make => make s
  | Model => model s
  end.

(** The state of the component. *)
Record State : Type := state {
  formState : FormState;
  loading : bool;
  result : ResultState
}.

(** What [fetch] and [response.json()] come to: [fetch] rejects, or it
    resolves to a response with its [ok] flag whose body is read or not.
    A body that is [null] makes the first property read throw, and is
    counted with the bodies that cannot be read. *)
Inductive Fetched : Type :=
| FetchRejects (e : Js.Thrown)
| Responds (ok : bool) (json : Completion Body).

(** [a ?? b] on a value that may be absent. *)
Definition nullish {A} (a : option A) (b : A) : A :=
  match a with
  | Some x => x
  | None => b
  end.

(** [data.scrapingError ? ... : ...] *)
Definition truthy (b : option bool) : bool :=
  match b with
  | Some true => true
  | _ => false
  end.

(** The [try] block of [handleSubmit]: the new result, or what is
    thrown. *)
Definition submit_outcome (fetched : Fetched) : Completion ResultState :=
  match fetched with
  | FetchRejects e => Throw e
  | Responds ok json =>
      match json with
      | Throw e => Throw e
      | Normal data =>
          if negb ok
          then Throw (Js.ErrorObject
                        (Js.or_else (b_error data) "Error al realizar el scraping"))
          else
            Normal
              (result_state
                 (nullish (b_description data) EmptyString)
                 (nullish (b_products data) [])
                 (b_pageInfo data)
                 (nullish (b_url data) EmptyString)
                 (if truthy (b_scrapingError data)
                  then "Error durante el scraping: "
                       ++ Js.or_else (b_errorDetails data) "Detalles no disponibles"
                  else EmptyString))
      end
  end.

(** [handleSubmit]: the state once the handler has run to its end.
    [setLoading(true)] and [resetResult()] come first, the [catch] block
    updates the result that [resetResult] left, and [finally] clears
    [loading]. *)
Definition handleSubmit (fetched : Fetched) (s : State) : State :=
  let reset := INITIAL_RESULT_STATE in
  match submit_outcome fetched with
  | Normal r => state (formState s) false r
  | Throw e =>
      state (formState s) false
        (result_state (description reset) (products reset) (pageInfo reset)
           (url reset) (Js.error_text e))
  end.

(** [response.ok] *)
Definition ok_status (status : nat) : bool :=
  (200 <=? status)%nat && (status <=? 299)%nat.

(** The page against the handler of [route.ts]: the form state is
    posted, and the answer of the handler comes back. *)
Definition fetch_scrape (w : World) (f : FormState) : Fetched :=
  match fst (run w (Normal (query_body (year f) (make f) (model f)))) with
  | Normal r =>
      Responds (ok_status (http_status (json_response r)))
        (Normal (http_body (json_response r)))
  | Throw e => FetchRejects e
  end.

(** One search, from the click to the state the page ends in. *)
Definition search (w : World) (s : State) : State :=
  handleSubmit (fetch_scrape w (formState s)) s.

End Page.

(** What the page makes of each answer of the handler. *)
Definition shown (r : Response) : Page.ResultState :=
  match r with
  | Success description products pageInfo url _ =>
      Page.result_state description products (Some pageInfo) url EmptyString
  | Degraded description errorDetails url =>
      Page.result_state description [] None url
        ("Error durante el scraping: "
         ++ Js.or_else (Some errorDetails) "Detalles no disponibles")
  | HardFailure _ _ =>
      Page.result_state EmptyString [] None EmptyString
        "Error al realizar el scraping"
  end.

(** ** The first copy of the search page

    The copy of [Home] that keeps every piece of the result in a state of
    its own and sets them one by one. *)

Module FirstPage.

Record State : Type := state {
  year : string;
  make : string;
  model : string;
  loading : bool;
  description : option string;
  products : list ProductRecord;
  pageInfo : option PageContent;
  url : string;
  error : string
}.

Definition setLoading (v : bool) (s : State) : State :=
  state (year s) (make s) (model s) v (description s) (products s)
    (pageInfo s) (url s) (error s).

Definition setDescription (v : option string) (s : State) : State :=
  state (year s) (make s) (model s) (loading s) v (products s)
    (pageInfo s) (url s) (error s).

Definition setProducts (v : list ProductRecord) (s : State) : State :=
  state (year s) (make s) (model s) (loading s) (description s) v
    (pageInfo s) (url s) (error s).

Definition setPageInfo (v : option PageContent) (s : State) : State :=
  state (year s) (make s) (model s) (loading s) (description s) (products s)
    v (url s) (error s).

Definition setUrl (v : string) (s : State) : State :=
  state (year s) (make s) (model s) (loading s) (description s) (products s)
    (pageInfo s) v (error s).

Definition setError (v : string) (s : State) : State :=
  state (year s) (make s) (model s) (loading s) (description s) (products s)
    (pageInfo s) (url s) v.

(** [if (v) set(v)] on a value that may be absent; [falsy] says which
    present values do not count. *)
Definition set_if {A} (falsy : A -> bool) (set : A -> State -> State)
    (v : option A) (s : State) : State :=
  match v with
  | Some x => if falsy x then s else set x s
  | None => s
  end.

(** The [try] block once the body is read and the response is ok. *)
Definition store (data : Body) (s : State) : State :=
  let s1 := setDescription (b_description data) s in
  let s2 := set_if (fun _ => false) setProducts (b_products data) s1 in
  let s3 := set_if (fun _ => false) (fun i => setPageInfo (Some i))
              (b_pageInfo data) s2 in
  let s4 := set_if Js.is_empty setUrl (b_url data) s3 in
  if Page.truthy (b_scrapingError data)
  then setError ("Error durante el scraping: "
                 ++ Js.or_else (b_errorDetails data) "Detalles no disponibles") s4
  else s4.

(** [handleSubmit] of the first copy. *)
Definition handleSubmit (fetched : Page.Fetched) (s : State) : State :=
  let s0 :=
    setError EmptyString
      (setUrl EmptyString
         (setPageInfo None
            (setProducts [] (setDescription (Some EmptyString) (setLoading true s)))))
  in
  let after :=
    match fetched with
    | Page.FetchRejects e => setError (Js.error_text e) s0
    | Page.Responds ok json =>
        match json with
        | Throw e => setError (Js.error_text e) s0
        | Normal data =>
            if negb ok
            then setError (Js.or_else (b_error data) "Error al realizar el scraping") s0
            else store data s0
        end
    end
  in
  setLoading false after.

(** The result part of the state, as the second copy keeps it; a
    description left [undefined] shows as the empty one. *)
Definition result (s : State) : Page.ResultState :=
  Page.result_state (Page.nullish (description s) EmptyString) (products s)
    (pageInfo s) (url s) (error s).

End FirstPage.

(** ** Orders in a trace *)

(** Calls made on the page. *)
Definition is_page_call (ev : Event) : bool :=
  match ev with
  | Goto _ _ | WaitForLoadState _ | Evaluate | Content => true
  | _ => false
  end.

(** Calls made to the language backend. *)
Definition is_backend_call (ev : Event) : bool :=
  match ev with
  | LlmModel _ | Respond _ => true
  | _ => false
  end.

Definition is_goto (ev : Event) : bool :=
  match ev with Goto _ _ => true | _ => false end.

Definition is_content (ev : Event) : bool :=
  match ev with Content => true | _ => false end.

(** Read from the left with [closed] saying whether [browser.close] has
    been called: no page call after a close, no backend call before
    one. *)
Fixpoint page_before_close_before_backend (closed : bool) (t : Trace) : bool :=
  match t with
  | [] => true
  | ev :: rest =>
      (if is_page_call ev then negb closed else true)
      && (if is_backend_call ev then closed else true)
      && page_before_close_before_backend (closed || is_close ev) rest
  end.

(** A text without a slash. *)
Fixpoint slash_free (s : string) : bool :=
  match s with
  | EmptyString => true
  | String c r => negb (Ascii.eqb c "/") && slash_free r
  end.

(** ** Words for the properties of the extraction *)

(** ['ul.products li'], the second alternative of the secondary
    selector. *)
Definition sel_list_items : SelectorList :=
  [[compound (Some "ul") ["products"]; type_only "li"]].

Fixpoint last_char (s : string) : option ascii :=
  match s with
  | EmptyString => None
  | String c EmptyString => Some c
  | String _ r => last_char r
  end.

(** A text that neither starts nor ends with white space. *)
Definition no_outer_space (s : string) : bool :=
  match s with
  | EmptyString => true
  | String c _ => negb (Js.is_white_space c)
  end
  && match last_char s with
     | Some c => negb (Js.is_white_space c)
     | None => true
     end.

(** ** Reading a JSON string back

    The first code unit that a piece of a JSON string stands for, and
    what follows it: the inverse of [Prompt.json_escape], used to show
    that the text written into the prompt can be read back. *)

Definition hex_value (c : ascii) : nat :=
  let n := nat_of_ascii c in
  if (n <? 58)%nat then n - 48 else n - 87.

Definition json_unescape_head (s : string) : option (ascii * string) :=
  match s with
  | EmptyString => None
  | String c r =>
      if (nat_of_ascii c =? 92)%nat
      then
        match r with
        | EmptyString => None
        | String k r' =>
            let n := nat_of_ascii k in
            if (n =? 98)%nat then Some (ascii_of_nat 8, r')
            else if (n =? 116)%nat then Some (ascii_of_nat 9, r')
            else if (n =? 110)%nat then Some (ascii_of_nat 10, r')
            else if (n =? 102)%nat then Some (ascii_of_nat 12, r')
            else if (n =? 114)%nat then Some (ascii_of_nat 13, r')
            else if (n =? 117)%nat
            then
              match r' with
              | String _ (String _ (String h1 (String h2 r''))) =>
                  Some (ascii_of_nat (16 * hex_value h1 + hex_value h2), r'')
              | _ => None
              end
            else Some (k, r')
        end
      else Some (c, r)
  end.

(** ** Proof support *)

Arguments build_url : simpl never.
Arguments Prompt.enhancedPrompt : simpl never.
Arguments productInfo : simpl never.
Arguments pageContent : simpl never.
Arguments Js.substring0 : simpl never.
Arguments calls : simpl never.
Arguments String.append : simpl never.

(** Case analysis on the next answer of a collaborator: the innermost
    completion that the goal branches on. *)
Ltac next_answer :=
  match goal with
  | |- context [match ?c with Normal _ => _ | Throw _ => _ end] =>
      lazymatch c with
      | context [match _ with Normal _ => _ | Throw _ => _ end] => fail
      | _ => destruct c eqn:?
      end
  end.

Ltac unfold_handler :=
  unfold POST, fallback_stage, close_and_describe, acquire, render_stage,
    generateDescription, launch, newContext, newPage, goto,
    waitForLoadState, evaluate, content, close, llm_model, respond,
    template, try_catch, bind, ret, throw, call, preview, error_message;
  cbn [forallb].

(** Case analysis on whether the values that the goal interpolates can
    be converted. *)
Ltac printable_cases :=
  repeat match goal with
         | |- context [Js.printable ?v] => destruct (Js.printable v) eqn:?
         end;
  cbn [andb].

(** The handler run for every answer of the collaborators, one case per
    answer.  It uses [destructure_cases], proved below. *)
Ltac run_cases_with cases body :=
  unfold_handler;
  destruct (cases body) as [?Hd | ?Hd]; rewrite Hd;
  unfold ret, throw; cbn [fst snd];
  printable_cases; cbn [fst snd];
  repeat (next_answer; cbn [fst snd]).

(** * Properties *)

(** ** Calls and traces *)

Lemma calls_app (kind : Event -> bool) (t u : Trace) :
  calls kind (t ++ u)%list = calls kind t + calls kind u.
Proof.
  unfold calls. rewrite filter_app, length_app. reflexivity.
Qed.

Lemma calls_snoc (kind : Event -> bool) (t : Trace) (ev : Event) :
  calls kind (t ++ [ev])%list = calls kind t + (if kind ev then 1 else 0).
Proof.
  rewrite calls_app. unfold calls. simpl. destruct (kind ev); reflexivity.
Qed.

(** A call returns what the collaborator answers and adds one event. *)
Lemma call_eq {A} (ev : Event) (outcome : Completion A) (t : Trace) :
  call ev outcome t = (outcome, (t ++ [ev])%list).
Proof. reflexivity. Qed.

(** The render stage leaves the calls of any other kind as they are. *)
Lemma render_stage_calls (kind : Event -> bool) (w : World) (url : string)
    (t : Trace) :
  (forall u n, kind (Goto u n) = false) ->
  (forall s, kind (WaitForLoadState s) = false) ->
  kind Evaluate = false ->
  kind Content = false ->
  calls kind (snd (render_stage w url t)) = calls kind t.
Proof.
  intros Hgoto Hwait Heval Hcontent.
  unfold render_stage, bind, goto, waitForLoadState, evaluate, content, call, ret.
  destruct (w_goto w url); cbn [snd];
    [| rewrite calls_snoc, Hgoto; lia].
  destruct (w_waitForLoadState w); cbn [snd];
    [| rewrite !calls_snoc, Hgoto, Hwait; lia].
  destruct (w_evaluate w _); cbn [snd];
    [| rewrite !calls_snoc, Hgoto, Hwait, Heval; lia].
  destruct (w_evaluate w _); cbn [snd];
    [| rewrite !calls_snoc, Hgoto, Hwait, Heval; lia].
  destruct (w_content w); cbn [snd];
    rewrite !calls_snoc, Hgoto, Hwait, Heval, Hcontent; lia.
Qed.

(** Destructuring throws on [null] and reads the three fields off
    anything else. *)
Lemma destructure_cases (body : Js.Value) :
  destructure body = throw (Js.ErrorObject destructure_null_message)
  \/ destructure body
     = ret (Js.get body "year", Js.get body "make", Js.get body "model").
Proof. destruct body; auto. Qed.

Lemma destructure_ok (body : Js.Value) :
  destructurable body ->
  destructure body
  = ret (Js.get body "year", Js.get body "make", Js.get body "model").
Proof. intros [Hnull Hundef]. destruct body; try congruence; reflexivity. Qed.

(** The handler is its stages put together. *)
Lemma POST_staged (w : World) (body : Js.Value) (t : Trace) :
  destructurable body ->
  interpolable body ->
  let year := Js.get body "year" in
  let make := Js.get body "make" in
  let model := Js.get body "model" in
  let url := build_url year make model in
  POST w (Normal body) t =
  match acquire w t with
  | (Throw e, t0) => (Normal (HardFailure error_message (Js.error_text e)), t0)
  | (Normal _, t0) =>
      match render_stage w url t0 with
      | (Throw e, t1) => fallback_stage w year make model url e t1
      | (Normal (products, info, htmlContent), t1) =>
          match close_and_describe w year make model products
                  (Prompt.page_hint (Some (pc_description info))
                                    (Some (pc_title info))) false t1 with
          | (Normal description, t2) =>
              (Normal (Success description products info url (preview htmlContent)), t2)
          | (Throw e, t2) => fallback_stage w year make model url e t2
          end
      end
  end.
Proof.
  intros Hbody (Hy & Hm & Hd). cbv zeta.
  unfold_handler. rewrite (destructure_ok body Hbody). unfold ret.
  rewrite Hy, Hm, Hd. cbn [andb fst snd].
  repeat (next_answer; cbn [fst snd]); reflexivity.
Qed.

(** ** What a request comes to *)

Lemma acquire_ok (w : World) :
  acquisition_succeeds w -> acquire w [] = (Normal tt, acquired).
Proof.
  intros (Hl & Hc & Hp). unfold_handler. rewrite Hl, Hc, Hp. reflexivity.
Qed.

(** A body that is [null] cannot be destructured; nothing is called. *)
Lemma POST_null (w : World) (t : Trace) :
  POST w (Normal Js.Null) t
  = (Normal (HardFailure error_message destructure_null_message), t).
Proof. reflexivity. Qed.

(** A body that cannot be read at all: nothing is called. *)
Lemma POST_unparsed (w : World) (e : Js.Thrown) (t : Trace) :
  POST w (Throw e) t = (Normal (HardFailure error_message (Js.error_text e)), t).
Proof. reflexivity. Qed.

(** What the render stage hands on is what the two page functions
    compute on the document, and the markup that [page.content] gave. *)
Lemma render_stage_results (w : World) (url : string) (t t' : Trace)
    (products : list ProductRecord) (info : PageContent) (htmlContent : string) :
  render_stage w url t = (Normal (products, info, htmlContent), t') ->
  products = productInfo (w_document w)
  /\ info = pageContent (w_document w)
  /\ w_content w = Normal htmlContent.
Proof.
  unfold_handler.
  repeat (next_answer; cbn [fst snd]); intros H; inversion H; subst; auto.
Qed.

(** Closing the browser and asking the backend, when all three calls
    return. *)
Lemma close_and_describe_returns (w : World) (year make model : Js.Value)
    (products : list ProductRecord) (hint : Prompt.PageHint) (isFallback : bool)
    (t : Trace) (reply : string) :
  let prompt := Prompt.enhancedPrompt year make model products hint isFallback in
  convertible year make model ->
  w_close w (calls is_close t) = Normal tt ->
  w_llm_model w (calls is_llm_model t) = Normal tt ->
  w_respond w (calls is_respond t) prompt = Normal reply ->
  close_and_describe w year make model products hint isFallback t
  = (Normal reply, (t ++ [Close; LlmModel model_name; Respond prompt])%list).
Proof.
  intros prompt (Hy & Hm & Hd) Hclose Hmodel Hrespond. subst prompt.
  unfold_handler. rewrite Hy, Hm, Hd. cbn [andb].
  rewrite Hclose.
  rewrite !calls_snoc; cbn [is_llm_model is_respond]; rewrite !Nat.add_0_r.
  rewrite Hmodel, Hrespond.
  rewrite <- !app_assoc. reflexivity.
Qed.

(** The same, when the model is there and [respond] throws. *)
Lemma close_and_describe_respond_throws (w : World) (year make model : Js.Value)
    (products : list ProductRecord) (hint : Prompt.PageHint) (isFallback : bool)
    (t : Trace) (e : Js.Thrown) :
  let prompt := Prompt.enhancedPrompt year make model products hint isFallback in
  convertible year make model ->
  w_close w (calls is_close t) = Normal tt ->
  w_llm_model w (calls is_llm_model t) = Normal tt ->
  w_respond w (calls is_respond t) prompt = Throw e ->
  close_and_describe w year make model products hint isFallback t
  = (Throw e, (t ++ [Close; LlmModel model_name; Respond prompt])%list).
Proof.
  intros prompt (Hy & Hm & Hd) Hclose Hmodel Hrespond. subst prompt.
  unfold_handler. rewrite Hy, Hm, Hd. cbn [andb].
  rewrite Hclose.
  rewrite !calls_snoc; cbn [is_llm_model is_respond]; rewrite !Nat.add_0_r.
  rewrite Hmodel, Hrespond.
  rewrite <- !app_assoc. reflexivity.
Qed.

(** After the render stage no [close], [model] or [respond] call has been
    made yet. *)
Lemma render_stage_counts (w : World) (url : string) :
  let t := snd (render_stage w url acquired) in
  calls is_close t = 0 /\ calls is_llm_model t = 0 /\ calls is_respond t = 0.
Proof.
  cbv zeta. repeat split; rewrite render_stage_calls; reflexivity.
Qed.

(** The success path: the render stage succeeds and the three calls
    that follow it return. *)
Lemma success_path (w : World) (body : Js.Value)
    (products : list ProductRecord) (info : PageContent)
    (htmlContent reply : string) :
  destructurable body ->
  interpolable body ->
  acquisition_succeeds w ->
  render_succeeds w (body_url body) products info htmlContent ->
  w_close w 0 = Normal tt ->
  w_llm_model w 0 = Normal tt ->
  w_respond w 0 (enriched_prompt body products info) = Normal reply ->
  fst (run w (Normal body))
  = Normal (Success reply products info (body_url body) (preview htmlContent)).
Proof.
  intros Hbody Hprint Hacq Hrender Hclose Hmodel Hrespond.
  unfold run. rewrite (POST_staged w body [] Hbody Hprint). cbv zeta.
  rewrite (acquire_ok w Hacq). fold (body_url body).
  unfold render_succeeds in Hrender.
  destruct (render_stage_counts w (body_url body)) as (Hc & Hm & Hr).
  destruct (render_stage w (body_url body) acquired) as [c t1].
  cbn [fst snd] in *. subst c.
  rewrite (close_and_describe_returns w _ _ _ _ _ _ t1 reply).
  - reflexivity.
  - exact Hprint.
  - rewrite Hc. exact Hclose.
  - rewrite Hm. exact Hmodel.
  - rewrite Hr. exact Hrespond.
Qed.

(** When the render stage throws, the handler goes on in the fallback
    block. *)
Lemma run_render_fails (w : World) (body : Js.Value) (e : Js.Thrown) :
  destructurable body ->
  interpolable body ->
  acquisition_succeeds w ->
  render_fails w (body_url body) e ->
  run w (Normal body)
  = fallback_stage w (Js.get body "year") (Js.get body "make")
      (Js.get body "model") (body_url body) e
      (snd (render_stage w (body_url body) acquired)).
Proof.
  intros Hbody Hprint Hacq Hrender.
  unfold run. rewrite (POST_staged w body [] Hbody Hprint). cbv zeta.
  rewrite (acquire_ok w Hacq). fold (body_url body).
  unfold render_fails in Hrender.
  destruct (render_stage w (body_url body) acquired) as [c t1].
  cbn [fst snd] in *. subst c. reflexivity.
Qed.

(** The degraded path: the render stage throws and the three calls of
    the fallback block return. *)
Lemma degraded_path (w : World) (body : Js.Value) (e : Js.Thrown) (reply : string) :
  destructurable body ->
  interpolable body ->
  acquisition_succeeds w ->
  render_fails w (body_url body) e ->
  w_close w 0 = Normal tt ->
  w_llm_model w 0 = Normal tt ->
  w_respond w 0 (fallback_prompt body) = Normal reply ->
  fst (run w (Normal body))
  = Normal (Degraded reply (Js.error_text e) (body_url body)).
Proof.
  intros Hbody Hprint Hacq Hrender Hclose Hmodel Hrespond.
  rewrite (run_render_fails w body e Hbody Hprint Hacq Hrender).
  destruct (render_stage_counts w (body_url body)) as (Hc & Hm & Hr).
  unfold fallback_stage.
  rewrite (close_and_describe_returns w _ _ _ _ _ _ _ reply).
  - reflexivity.
  - exact Hprint.
  - rewrite Hc. exact Hclose.
  - rewrite Hm. exact Hmodel.
  - rewrite Hr. exact Hrespond.
Qed.

(** The same, when the model cannot be fetched. *)
Lemma close_and_describe_model_throws (w : World) (year make model : Js.Value)
    (products : list ProductRecord) (hint : Prompt.PageHint) (isFallback : bool)
    (t : Trace) (e : Js.Thrown) :
  w_close w (calls is_close t) = Normal tt ->
  w_llm_model w (calls is_llm_model t) = Throw e ->
  close_and_describe w year make model products hint isFallback t
  = (Throw e, (t ++ [Close; LlmModel model_name])%list).
Proof.
  intros Hclose Hmodel. unfold_handler.
  rewrite Hclose.
  rewrite !calls_snoc; cbn [is_llm_model]; rewrite !Nat.add_0_r.
  rewrite Hmodel.
  rewrite <- !app_assoc. reflexivity.
Qed.

(** A failure of the fallback synthesis ends the request: the response is
    the hard failure, the call that failed is the last call made, and the
    backend was asked at most once. *)
Lemma fallback_failure (w : World) (body : Js.Value) (e e' : Js.Thrown) :
  destructurable body ->
  interpolable body ->
  acquisition_succeeds w ->
  render_fails w (body_url body) e ->
  w_close w 0 = Normal tt ->
  synthesis_throws w (fallback_prompt body) e' ->
  fst (run w (Normal body)) = Normal (HardFailure error_message (Js.error_text e'))
  /\ (exists t, snd (run w (Normal body)) = (t ++ [LlmModel model_name])%list
                \/ snd (run w (Normal body))
                   = (t ++ [Respond (fallback_prompt body)])%list)
  /\ calls is_respond (snd (run w (Normal body))) <= 1.
Proof.
  intros Hbody Hprint Hacq Hrender Hclose Hsyn.
  rewrite (run_render_fails w body e Hbody Hprint Hacq Hrender).
  destruct (render_stage_counts w (body_url body)) as (Hc & Hm & Hr).
  unfold fallback_stage.
  destruct Hsyn as [Hmodel | [Hmodel Hrespond]].
  - rewrite (close_and_describe_model_throws w _ _ _ _ _ _ _ e');
      [| rewrite Hc; exact Hclose | rewrite Hm; exact Hmodel].
    cbn [fst snd]. split; [reflexivity |]. split.
    + exists (snd (render_stage w (body_url body) acquired) ++ [Close])%list.
      left. rewrite <- app_assoc. reflexivity.
    + rewrite calls_app, Hr. unfold calls. cbn. lia.
  - rewrite (close_and_describe_respond_throws w _ _ _ _ _ _ _ e');
      [| exact Hprint | rewrite Hc; exact Hclose | rewrite Hm; exact Hmodel
       | rewrite Hr; exact Hrespond].
    cbn [fst snd]. split; [reflexivity |]. split.
    + exists (snd (render_stage w (body_url body) acquired)
              ++ [Close; LlmModel model_name])%list.
      right. rewrite <- app_assoc. reflexivity.
    + rewrite calls_app, Hr. unfold calls. cbn. lia.
Qed.

(** The handler always answers: its outer [catch] lets nothing out. *)
Lemma run_returns (w : World) (request : Completion Js.Value) :
  exists r, fst (run w request) = Normal r.
Proof.
  unfold run. destruct request as [body | e]; [| eexists; reflexivity].
  unfold_handler.
  destruct (destructure_cases body) as [H | H]; rewrite H; unfold ret, throw;
    cbn [fst snd]; printable_cases; cbn [fst snd];
    repeat (next_answer; cbn [fst snd]); eexists; reflexivity.
Qed.

(** The three shapes of an answer, and where their parts come from. *)
Lemma run_inv (w : World) (request : Completion Js.Value) (r : Response) :
  fst (run w request) = Normal r ->
  (exists details, r = HardFailure error_message details)
  \/ (exists body description e,
        request = Normal body
        /\ backend_replied w description
        /\ r = Degraded description (Js.error_text e) (body_url body))
  \/ (exists body description htmlContent,
        request = Normal body
        /\ backend_replied w description
        /\ w_content w = Normal htmlContent
        /\ r = Success description (productInfo (w_document w))
                 (pageContent (w_document w)) (body_url body)
                 (preview htmlContent)).
Proof.
  unfold run. destruct request as [body | e].
  2:{ cbn. intros H; inversion H. left. eexists. reflexivity. }
  unfold_handler. fold (body_url body).
  destruct (destructure_cases body) as [Hd | Hd]; rewrite Hd; unfold ret, throw;
    cbn [fst snd]; printable_cases; cbn [fst snd];
    repeat (next_answer; cbn [fst snd]);
    intros H; inversion H; subst; clear H;
    first
      [ left; eexists; reflexivity
      | right; left; do 3 eexists; split; [reflexivity |];
        split; [do 4 eexists; split; eassumption | reflexivity]
      | right; right; do 3 eexists; split; [reflexivity |];
        split; [do 4 eexists; split; eassumption |]; split; reflexivity ].
Qed.

(** No request asks the backend more than twice, nor closes the browser
    more than twice. *)
Lemma run_call_bounds (w : World) (request : Completion Js.Value) :
  calls is_respond (snd (run w request)) <= 2
  /\ calls is_close (snd (run w request)) <= 2.
Proof.
  unfold run. destruct request as [body | e]; [| unfold calls; cbn; lia].
  unfold_handler.
  destruct (destructure_cases body) as [Hd | Hd]; rewrite Hd; unfold ret, throw;
    cbn [fst snd]; printable_cases; cbn [fst snd];
    repeat (next_answer; cbn [fst snd]);
    unfold calls; cbn; lia.
Qed.

Lemma body_url_query (year make model : string) :
  body_url (query_body year make model) = query_url year make model.
Proof. reflexivity. Qed.

(** Once the renderer is acquired, the first thing asked of it is the
    navigation to the URL of the body. *)
Lemma run_trace_prefix (w : World) (body : Js.Value) :
  destructurable body ->
  interpolable body ->
  acquisition_succeeds w ->
  exists rest,
    trace_of w (Normal body)
    = (acquired ++ Goto (body_url body) 30000 :: rest)%list.
Proof.
  intros Hbody (Hy & Hm & Hd) (Hl & Hc & Hp). unfold trace_of, run.
  unfold_handler. rewrite (destructure_ok body Hbody). unfold ret.
  rewrite Hy, Hm, Hd. cbn [andb fst snd].
  rewrite Hl, Hc, Hp. cbn [fst snd]. fold (body_url body).
  repeat (next_answer; cbn [fst snd]);
    cbn [app acquired]; eexists; reflexivity.
Qed.

(** ** The extraction functions *)

Lemma productInfo_with_primary (q : SelectorList -> list Located) :
  q sel_product <> [] ->
  productInfo_with q = map extract_product (q sel_product).
Proof.
  intros H. unfold productInfo_with.
  destruct (q sel_product) as [| p ps]; [congruence | reflexivity].
Qed.

Lemma productInfo_with_secondary (q : SelectorList -> list Located) :
  q sel_product = [] ->
  q sel_alternative <> [] ->
  productInfo_with q = map extract_alternative (q sel_alternative).
Proof.
  intros H1 H2. unfold productInfo_with. rewrite H1. cbn.
  destruct (q sel_alternative) as [| p ps]; [congruence | reflexivity].
Qed.

Lemma productInfo_with_none (q : SelectorList -> list Located) :
  q sel_product = [] ->
  q sel_alternative = [] ->
  productInfo_with q = [].
Proof.
  intros H1 H2. unfold productInfo_with. rewrite H1, H2. reflexivity.
Qed.

(** An element that matches [.products .product] matches [.product]. *)
Lemma nested_product_is_product (e : Located) :
  matches_complex [class_only "products"; class_only "product"] e = true ->
  matches sel_product e = true.
Proof.
  unfold matches, sel_product, matches_complex. cbn [rev app existsb].
  intros H. apply andb_true_iff in H as [H _]. rewrite H.
  destruct (ancestors e); reflexivity.
Qed.

Lemma filter_nil_false {A} (f : A -> bool) (l : list A) (x : A) :
  filter f l = [] -> In x l -> f x = false.
Proof.
  induction l as [| a l IH]; cbn; [contradiction |].
  destruct (f a) eqn:Hfa; [discriminate |].
  intros Hnil [-> | Hin]; auto.
Qed.

(** So when nothing matches the primary selector, the secondary selector
    can only find list items under [ul.products]. *)
Lemma alternative_is_list_items (d : Document) :
  querySelectorAll d sel_product = [] ->
  querySelectorAll d sel_alternative
  = querySelectorAll d [[compound (Some "ul") ["products"]; type_only "li"]].
Proof.
  intros Hnil. unfold querySelectorAll in *.
  apply filter_ext_in. intros e Hin.
  pose proof (filter_nil_false _ _ e Hnil Hin) as Hno.
  unfold matches, sel_alternative. cbn [existsb].
  destruct (matches_complex [class_only "products"; class_only "product"] e)
    eqn:Hnested; [| reflexivity].
  rewrite (nested_product_is_product e Hnested) in Hno. discriminate.
Qed.

Lemma trimmed_text_none : trimmed_text None = EmptyString.
Proof. reflexivity. Qed.

Lemma src_of_none : src_of None = EmptyString.
Proof. reflexivity. Qed.

(** An image without a [src] attribute gives the empty string too. *)
Lemma src_of_no_attribute (e : Located) :
  attribute "src" (self e) = None -> src_of (Some e) = EmptyString.
Proof. intros H. unfold src_of. rewrite H. reflexivity. Qed.

(** The markup of the root starts with its opening angle bracket. *)
Lemma outerHTML_head (d : Document) :
  exists rest, outerHTML d = String "<" rest.
Proof. eexists. reflexivity. Qed.

Lemma htmlLength_positive (d : Document) : 0 < htmlLength (pageContent d).
Proof.
  unfold pageContent. cbn [htmlLength].
  destruct (outerHTML_head d) as [rest ->].
  cbn [String.length]. lia.
Qed.

(** * The claims *)



(** What [q?.textContent?.trim() || ''] and [q?.getAttribute('src') || '']
    come to. *)
Lemma trimmed_text_cases (q : option Located) :
  trimmed_text q
  = match q with
    | Some e => Js.trim (textContent (self e))
    | None => EmptyString
    end.
Proof.
  unfold trimmed_text. destruct q as [e |]; [| reflexivity].
  cbn [option_map Js.or_else].
  destruct (Js.trim (textContent (self e))); reflexivity.
Qed.

Lemma src_of_cases (q : option Located) :
  src_of q
  = match q with
    | Some e =>
        match attribute "src" (self e) with
        | Some v => v
        | None => EmptyString
        end
    | None => EmptyString
    end.
Proof.
  unfold src_of. destruct q as [e |]; [| reflexivity].
  destruct (attribute "src" (self e)) as [[| c v] |]; reflexivity.
Qed.

(** C8. Every matched product element gives one record, at the same
    position, and each of the three fields is read by its own query
    inside the element and by nothing else: the title is the trimmed
    text of the first element under the title selector, the price the
    trimmed text of the first element under the price selector, the
    image URL the [src] attribute of the first [img]; a field whose query
    finds nothing (or whose [img] has no [src]) is the empty string,
    whatever the other two queries find.  This holds for the primary tier
    and, with its own selectors, for the secondary tier. *)
Theorem C8_fields_default_to_empty (d : Document) (i : nat) (product : Located) :
  (nth_error (querySelectorAll d sel_product) i = Some product ->
   exists r,
     nth_error (productInfo d) i = Some r
     /\ title r
        = match querySelector sel_title product with
          | Some e => Js.trim (textContent (self e))
          | None => EmptyString
          end
     /\ price r
        = match querySelector sel_price product with
          | Some e => Js.trim (textContent (self e))
          | None => EmptyString
          end
     /\ imageUrl r
        = match querySelector sel_img product with
          | Some e =>
              match attribute "src" (self e) with
              | Some v => v
              | None => EmptyString
              end
          | None => EmptyString
          end)
  /\ (querySelectorAll d sel_product = [] ->
      nth_error (querySelectorAll d sel_alternative) i = Some product ->
      exists r,
        nth_error (productInfo d) i = Some r
        /\ title r
           = match querySelector sel_alternative_title product with
             | Some e => Js.trim (textContent (self e))
             | None => EmptyString
             end
        /\ price r
           = match querySelector sel_alternative_price product with
             | Some e => Js.trim (textContent (self e))
             | None => EmptyString
             end
        /\ imageUrl r
           = match querySelector sel_img product with
             | Some e =>
                 match attribute "src" (self e) with
                 | Some v => v
                 | None => EmptyString
                 end
             | None => EmptyString
             end).
Proof.
  split.
  - intros Hnth. exists (extract_product product). split.
    + unfold productInfo. rewrite productInfo_with_primary.
      * now apply map_nth_error.
      * intros Hnil. rewrite Hnil in Hnth. destruct i; discriminate.
    + unfold extract_product; cbn [title price imageUrl].
      rewrite <- !trimmed_text_cases, <- src_of_cases. auto.
  - intros Hnil Hnth. exists (extract_alternative product). split.
    + unfold productInfo. rewrite productInfo_with_secondary; trivial.
      * now apply map_nth_error.
      * intros Hnil'. rewrite Hnil' in Hnth. destruct i; discriminate.
    + unfold extract_alternative; cbn [title price imageUrl].
      rewrite <- !trimmed_text_cases, <- src_of_cases. auto.
Qed.

Lemma C8_witness :
  (nth_error (querySelectorAll Samples.two_cards sel_product) 0
   = Some Samples.card_with_price
   /\ nth_error (productInfo Samples.two_cards) 0
      = Some (product_record "Piston Kit A" "$199.00" "/kit.png"))
  /\ (nth_error (querySelectorAll Samples.two_cards sel_product) 1
      = Some Samples.card_without_price
      /\ querySelector sel_price Samples.card_without_price = None
      /\ nth_error (productInfo Samples.two_cards) 1
         = Some (product_record "Piston Kit B" EmptyString "/kit.png")).
Proof.
  assert (H0 : nth_error (querySelectorAll Samples.two_cards sel_product) 0
               = Some Samples.card_with_price) by reflexivity.
  assert (H1 : nth_error (querySelectorAll Samples.two_cards sel_product) 1
               = Some Samples.card_without_price) by reflexivity.
  assert (Hprice : querySelector sel_price Samples.card_without_price = None)
    by reflexivity.
  split.
  - split; [exact H0 |].
    destruct (proj1 (C8_fields_default_to_empty Samples.two_cards 0
                       Samples.card_with_price) H0)
      as ([t p u] & Hrec & Ht & Hp & Hu).
    rewrite Hrec. cbn [title price imageUrl] in Ht, Hp, Hu.
    rewrite Ht, Hp, Hu. reflexivity.
  - split; [exact H1 |]. split; [exact Hprice |].
    destruct (proj1 (C8_fields_default_to_empty Samples.two_cards 1
                       Samples.card_without_price) H1)
      as ([t p u] & Hrec & Ht & Hp & Hu).
    rewrite Hrec. cbn [title price imageUrl] in Ht, Hp, Hu.
    rewrite Ht, Hp, Hu. reflexivity.
Defined.

(** C9. The URL depends on the query alone.  It is the catalogue address
    with the year, the make and the model copied as they are into the
    path segments [yr-], [mk-] and [ml-]; and whatever the collaborators
    do, a response that reports a URL (the success and the degraded
    shapes) reports that one. *)
Theorem C9_url_is_a_function_of_the_query (year make model : string) :
  query_url year make model
  = url_origin ++ url_category_path
    ++ "yr-" ++ year ++ "/mk-" ++ make ++ "/ml-" ++ model ++ "/"
  /\ forall (w1 w2 : World) (r1 r2 : Response) (u1 u2 : string),
       answer w1 (Normal (query_body year make model)) = Some r1 ->
       answer w2 (Normal (query_body year make model)) = Some r2 ->
       field_url r1 = Some u1 ->
       field_url r2 = Some u2 ->
       u1 = query_url year make model /\ u2 = u1.
Proof.
  split; [reflexivity |].
  assert (Hone : forall w r u,
             answer w (Normal (query_body year make model)) = Some r ->
             field_url r = Some u -> u = query_url year make model).
  { intros w r u Hr Hu. unfold answer in Hr.
    destruct (fst (run w (Normal (query_body year make model)))) as [r' |] eqn:Hrun;
      [| discriminate].
    inversion Hr; subst r'; clear Hr.
    destruct (run_inv w _ r Hrun)
      as [(details & ->) | [(body & dsc & e & Hreq & _ & ->)
                           | (body & dsc & html & Hreq & _ & _ & ->)]];
      cbn in Hu; try discriminate;
      inversion Hreq; subst body; inversion Hu; apply body_url_query. }
  intros w1 w2 r1 r2 u1 u2 H1 H2 Hu1 Hu2.
  rewrite (Hone w1 r1 u1 H1 Hu1), (Hone w2 r2 u2 H2 Hu2). split; reflexivity.
Qed.

Lemma C9_witness :
  exists r1 r2 u1 u2,
    answer (Samples.steady Samples.two_cards "Pistones Pro-X")
      (Normal (query_body "2022" "honda" "crf-250-r")) = Some r1
    /\ answer (Samples.navigation_timeout "Pistones Pro-X")
         (Normal (query_body "2022" "honda" "crf-250-r")) = Some r2
    /\ field_url r1 = Some u1
    /\ field_url r2 = Some u2
    /\ u1 = query_url "2022" "honda" "crf-250-r"
    /\ u2 = u1.
Proof.
  pose (r1 := Success "Pistones Pro-X" (productInfo Samples.two_cards)
                (pageContent Samples.two_cards) Samples.honda_url
                (preview Samples.markup)).
  pose (r2 := Degraded "Pistones Pro-X" "page.goto: Timeout 30000ms exceeded."
                Samples.honda_url).
  assert (H1 : answer (Samples.steady Samples.two_cards "Pistones Pro-X")
                 (Normal (query_body "2022" "honda" "crf-250-r")) = Some r1)
    by (vm_compute; reflexivity).
  assert (H2 : answer (Samples.navigation_timeout "Pistones Pro-X")
                 (Normal (query_body "2022" "honda" "crf-250-r")) = Some r2)
    by (vm_compute; reflexivity).
  assert (Hu1 : field_url r1 = Some Samples.honda_url) by reflexivity.
  assert (Hu2 : field_url r2 = Some Samples.honda_url) by reflexivity.
  destruct (proj2 (C9_url_is_a_function_of_the_query "2022" "honda" "crf-250-r")
              _ _ r1 r2 _ _ H1 H2 Hu1 Hu2) as [Ha Hb].
  exists r1, r2, Samples.honda_url, Samples.honda_url.
  repeat split; assumption.
Defined.

(** C10. A response of the success shape carries [htmlPreview]: the first
    500 code units of the markup that [page.content] returned, followed
    by three dots. *)
Theorem C10_html_preview (w : World) (request : Completion Js.Value)
    (r : Response) (products : list ProductRecord) :
  answer w request = Some r ->
  field_products r = Some products ->
  exists htmlContent,
    w_content w = Normal htmlContent
    /\ field_htmlPreview r = Some (substring 0 500 htmlContent ++ "...").
Proof.
  intros Hr Hp. unfold answer in Hr.
  destruct (fst (run w request)) as [r' |] eqn:Hrun; [| discriminate].
  inversion Hr; subst r'; clear Hr.
  destruct (run_inv w _ r Hrun)
    as [(details & ->) | [(body & dsc & e & _ & _ & ->)
                         | (body & dsc & html & _ & _ & Hc & ->)]];
    cbn in Hp; try discriminate.
  exists html. split; [exact Hc | reflexivity].
Qed.

Lemma C10_witness :
  exists r htmlContent,
    answer (Samples.steady Samples.two_cards "Pistones Pro-X") (Normal Samples.honda)
    = Some r
    /\ field_products r = Some (productInfo Samples.two_cards)
    /\ w_content (Samples.steady Samples.two_cards "Pistones Pro-X")
       = Normal htmlContent
    /\ field_htmlPreview r = Some (substring 0 500 htmlContent ++ "...").
Proof.
  pose (r := Success "Pistones Pro-X" (productInfo Samples.two_cards)
               (pageContent Samples.two_cards) Samples.honda_url
               (preview Samples.markup)).
  assert (H1 : answer (Samples.steady Samples.two_cards "Pistones Pro-X")
                 (Normal Samples.honda) = Some r) by (vm_compute; reflexivity).
  assert (H2 : field_products r = Some (productInfo Samples.two_cards))
    by reflexivity.
  destruct (C10_html_preview _ _ r _ H1 H2) as (html & Hc & Hp).
  exists r, html. repeat split; assumption.
Defined.

(** C6. The three fields are free text.  The only check is the form's:
    it does not submit while a field is empty.  The handler checks
    nothing: whatever the three texts are, once the renderer is acquired
    the first thing asked of it is the navigation to the address that has
    each text copied as it is into its path segment. *)
Theorem C6_fields_checked_for_emptiness_only (year make model : string) :
  (Form.submit year make model = None
   <-> (year = EmptyString \/ make = EmptyString \/ model = EmptyString))
  /\ (Form.submit year make model <> None ->
      Form.submit year make model = Some (query_body year make model))
  /\ (forall w : World,
        acquisition_succeeds w ->
        exists rest,
          trace_of w (Normal (query_body year make model))
          = [Launch; NewContext; NewPage;
             Goto (url_origin ++ url_category_path
                   ++ "yr-" ++ year ++ "/mk-" ++ make ++ "/ml-" ++ model ++ "/")
                  30000] ++ rest)%list.
Proof.
  split; [| split].
  - unfold Form.submit, Form.required.
    destruct year, make, model; cbn; split; intros H; try discriminate;
      try reflexivity; auto;
      destruct H as [H | [H | H]]; discriminate.
  - unfold Form.submit.
    destruct (Form.required year && Form.required make && Form.required model);
      [reflexivity | congruence].
  - intros w Hacq.
    destruct (run_trace_prefix w (query_body year make model)) as [rest Hrest];
      [split; discriminate | repeat split | exact Hacq |].
    exists rest. rewrite Hrest. reflexivity.
Qed.

Lemma C6_witness :
  Form.submit "2022" "honda" "crf-250-r" <> None
  /\ acquisition_succeeds (Samples.navigation_timeout "Pistones Pro-X")
  /\ Form.submit "2022" "honda" "crf-250-r" = Some Samples.honda
  /\ exists rest,
       trace_of (Samples.navigation_timeout "Pistones Pro-X") (Normal Samples.honda)
       = ([Launch; NewContext; NewPage; Goto Samples.honda_url 30000] ++ rest)%list.
Proof.
  assert (Hs : Form.submit "2022" "honda" "crf-250-r" <> None)
    by (vm_compute; discriminate).
  assert (Ha : acquisition_succeeds (Samples.navigation_timeout "Pistones Pro-X"))
    by (repeat split; reflexivity).
  destruct (C6_fields_checked_for_emptiness_only "2022" "honda" "crf-250-r")
    as (_ & Hsome & Htrace).
  split; [exact Hs |]. split; [exact Ha |].
  split; [exact (Hsome Hs) |].
  exact (Htrace _ Ha).
Defined.

(** The template literal of line 53 throws on a body whose fields it
    cannot write, before anything is asked of the renderer. *)
Lemma POST_not_interpolable (w : World) (body : Js.Value) (t : Trace) :
  destructurable body ->
  ~ interpolable body ->
  POST w (Normal body) t
  = (Normal (HardFailure error_message Js.convert_message), t).
Proof.
  intros Hbody Hnot. unfold_handler.
  rewrite (destructure_ok body Hbody). unfold ret. cbn [fst snd].
  unfold interpolable, convertible in Hnot.
  destruct (Js.printable (Js.get body "year")),
    (Js.printable (Js.get body "make")),
    (Js.printable (Js.get body "model")); cbn [andb];
    try reflexivity.
  exfalso. apply Hnot. auto.
Qed.

(** C7 (amended).  Three kinds of body are answered at once with the
    hard failure (status 500, an error message and the details of what
    was thrown) and without any call to the renderer: a body that cannot
    be read as JSON, the body [null], and a body with a year, make or
    model that a template literal cannot write (an object that owns a
    [toString] key, or an array that holds one).  Every other JSON value
    goes on to the renderer, whether or not it has the three fields: the
    browser is launched. *)
Theorem C7_unreadable_body_fails_early (w : World) :
  (forall e : Js.Thrown,
     run w (Throw e)
     = (Normal (HardFailure "Error al realizar el scraping" (Js.error_text e)), []))
  /\ run w (Normal Js.Null)
     = (Normal (HardFailure "Error al realizar el scraping"
                  destructure_null_message), [])
  /\ (forall body : Js.Value,
        destructurable body ->
        ~ interpolable body ->
        run w (Normal body)
        = (Normal (HardFailure "Error al realizar el scraping"
                     "Cannot convert object to primitive value"), []))
  /\ status (HardFailure "Error al realizar el scraping" destructure_null_message)
     = 500
  /\ (forall body : Js.Value,
        destructurable body ->
        interpolable body ->
        hd_error (trace_of w (Normal body)) = Some Launch).
Proof.
  split; [| split; [| split; [| split]]]; try reflexivity.
  - intros body Hbody Hnot. unfold run.
    now apply POST_not_interpolable.
  - intros body Hbody (Hy & Hm & Hd). unfold trace_of, run. unfold_handler.
    rewrite (destructure_ok body Hbody). unfold ret.
    rewrite Hy, Hm, Hd. cbn [andb fst snd].
    repeat (next_answer; cbn [fst snd]); reflexivity.
Qed.

Lemma C7_witness :
  (destructurable Samples.year_with_toString
   /\ ~ interpolable Samples.year_with_toString
   /\ run Samples.timeout_and_backend_down (Normal Samples.year_with_toString)
      = (Normal (HardFailure "Error al realizar el scraping"
                   "Cannot convert object to primitive value"), []))
  /\ (destructurable (Js.Object [("year", Js.Str "2022")])
      /\ interpolable (Js.Object [("year", Js.Str "2022")])
      /\ hd_error (trace_of Samples.timeout_and_backend_down
                     (Normal (Js.Object [("year", Js.Str "2022")])))
         = Some Launch).
Proof.
  assert (H1 : destructurable Samples.year_with_toString)
    by (split; discriminate).
  assert (H2 : ~ interpolable Samples.year_with_toString)
    by (intros (Hy & _); vm_compute in Hy; discriminate).
  assert (H3 : destructurable (Js.Object [("year", Js.Str "2022")]))
    by (split; discriminate).
  assert (H4 : interpolable (Js.Object [("year", Js.Str "2022")]))
    by (repeat split; reflexivity).
  destruct (C7_unreadable_body_fails_early Samples.timeout_and_backend_down)
    as (_ & _ & Hthrow & _ & Hlaunch).
  split.
  - split; [exact H1 |]. split; [exact H2 | exact (Hthrow _ H1 H2)].
  - split; [exact H3 |]. split; [exact H4 | exact (Hlaunch _ H3 H4)].
Defined.

(** C7 as first stated fails on a body without the fields: [{}] is
    not rejected.  The browser is launched, the page is visited at an
    address spelled with [undefined], and the answer has status 200. *)
Lemma C7_counterexample :
  Js.get (Js.Object []) "year" = Js.Undefined
  /\ Js.get (Js.Object []) "make" = Js.Undefined
  /\ Js.get (Js.Object []) "model" = Js.Undefined
  /\ option_map status
       (answer (Samples.steady Samples.two_cards "Pistones Pro-X")
          (Normal (Js.Object []))) = Some 200
  /\ option_map field_url
       (answer (Samples.steady Samples.two_cards "Pistones Pro-X")
          (Normal (Js.Object [])))
     = Some (Some "https://www.pro-x.com/product-category/engine/pistons-piston-components/piston-kits/yr-undefined/mk-undefined/ml-undefined/")
  /\ hd_error (trace_of (Samples.steady Samples.two_cards "Pistones Pro-X")
                 (Normal (Js.Object []))) = Some Launch.
Proof. vm_compute. repeat split; reflexivity. Qed.

(** ** Render failure and synthesis failure *)

(** A navigation that throws, the timeout included, is a failure of the
    render stage. *)
Lemma goto_throws_render_fails (w : World) (url : string) (e : Js.Thrown) :
  w_goto w url = Throw e -> render_fails w url e.
Proof.
  intros H. unfold render_fails. unfold_handler. rewrite H. reflexivity.
Qed.

(** So is a wait for network idle that throws. *)
Lemma wait_throws_render_fails (w : World) (url : string) (e : Js.Thrown) :
  w_goto w url = Normal tt ->
  w_waitForLoadState w = Throw e ->
  render_fails w url e.
Proof.
  intros H1 H2. unfold render_fails. unfold_handler. rewrite H1, H2. reflexivity.
Qed.

Lemma answer_of_fst (w : World) (request : Completion Js.Value) (r : Response) :
  fst (run w request) = Normal r -> answer w request = Some r.
Proof. intros H. unfold answer. rewrite H. reflexivity. Qed.

(** C2 (amended).  For a body whose fields the URL template can write:
    when the render stage fails and the calls of
    the fallback block return (the browser closes, the model is there,
    the backend replies), the answer is the degraded one, with status
    200: [scrapingError] is true, there is no [products] and no
    [pageInfo] key, [description] is the reply of the backend as it is,
    [errorDetails] is the text of the render error, and [url] is the URL
    built from the query. *)
Theorem C2_render_failure_gives_degraded (w : World) (body : Js.Value)
    (e : Js.Thrown) (reply : string) :
  destructurable body ->
  interpolable body ->
  acquisition_succeeds w ->
  render_fails w (body_url body) e ->
  w_close w 0 = Normal tt ->
  w_llm_model w 0 = Normal tt ->
  w_respond w 0 (fallback_prompt body) = Normal reply ->
  exists r,
    answer w (Normal body) = Some r
    /\ status r = 200
    /\ field_scrapingError r = Some true
    /\ field_products r = None
    /\ field_pageInfo r = None
    /\ field_description r = Some reply
    /\ field_errorDetails r = Some (Js.error_text e)
    /\ field_url r = Some (body_url body).
Proof.
  intros Hbody Hprint Hacq Hrender Hclose Hmodel Hrespond.
  exists (Degraded reply (Js.error_text e) (body_url body)).
  split; [| repeat split].
  apply answer_of_fst. now apply degraded_path.
Qed.

Lemma C2_witness :
  exists r,
    answer (Samples.navigation_timeout "Pistones Pro-X") (Normal Samples.honda)
    = Some r
    /\ status r = 200
    /\ field_scrapingError r = Some true
    /\ field_products r = None
    /\ field_pageInfo r = None
    /\ field_description r = Some "Pistones Pro-X"
    /\ field_errorDetails r = Some "page.goto: Timeout 30000ms exceeded."
    /\ field_url r = Some Samples.honda_url.
Proof.
  apply (C2_render_failure_gives_degraded
           (Samples.navigation_timeout "Pistones Pro-X") Samples.honda
           Samples.timeout_error "Pistones Pro-X").
  - split; discriminate.
  - repeat split; reflexivity.
  - repeat split; reflexivity.
  - apply goto_throws_render_fails. reflexivity.
  - reflexivity.
  - reflexivity.
  - reflexivity.
Defined.

(** C2 as first stated fails in two ways.  The navigation times out
    and the backend replies with empty content: the degraded answer has
    an empty description.  The navigation times out and the backend is
    down: the answer is the hard failure, not the degraded one. *)
Lemma C2_counterexample :
  (render_fails (Samples.navigation_timeout EmptyString)
     (body_url Samples.honda) Samples.timeout_error
   /\ option_map field_scrapingError
        (answer (Samples.navigation_timeout EmptyString) (Normal Samples.honda))
      = Some (Some true)
   /\ option_map field_description
        (answer (Samples.navigation_timeout EmptyString) (Normal Samples.honda))
      = Some (Some EmptyString))
  /\ (render_fails Samples.timeout_and_backend_down
        (body_url Samples.honda) Samples.timeout_error
      /\ option_map status
           (answer Samples.timeout_and_backend_down (Normal Samples.honda))
         = Some 500
      /\ option_map field_scrapingError
           (answer Samples.timeout_and_backend_down (Normal Samples.honda))
         = Some None).
Proof. vm_compute. repeat split; reflexivity. Qed.

(** C5 (amended).  For a body whose fields the URL template can write:
    when the render stage succeeds on a
    document in which neither selector tier matches anything, and the
    calls that follow return (the browser closes, the model is there, the
    backend replies), the answer is the success one, with status 200: the
    products list is empty, there is no [scrapingError] key, [pageInfo]
    is what the page function reads off the document, and its
    [htmlLength] is positive. *)
Theorem C5_zero_products_is_success (w : World) (body : Js.Value)
    (products : list ProductRecord) (info : PageContent)
    (htmlContent reply : string) :
  destructurable body ->
  interpolable body ->
  acquisition_succeeds w ->
  render_succeeds w (body_url body) products info htmlContent ->
  querySelectorAll (w_document w) sel_product = [] ->
  querySelectorAll (w_document w) sel_alternative = [] ->
  w_close w 0 = Normal tt ->
  w_llm_model w 0 = Normal tt ->
  w_respond w 0 (enriched_prompt body products info) = Normal reply ->
  exists r,
    answer w (Normal body) = Some r
    /\ status r = 200
    /\ field_products r = Some []
    /\ field_scrapingError r = None
    /\ field_error r = None
    /\ field_pageInfo r = Some (pageContent (w_document w))
    /\ 0 < htmlLength (pageContent (w_document w))
    /\ field_description r = Some reply
    /\ field_url r = Some (body_url body).
Proof.
  intros Hbody Hprint Hacq Hrender Hnone1 Hnone2 Hclose Hmodel Hrespond.
  pose proof (success_path w body products info htmlContent reply
                Hbody Hprint Hacq Hrender Hclose Hmodel Hrespond) as Hrun.
  unfold render_succeeds in Hrender.
  destruct (render_stage w (body_url body) acquired) as [c t1] eqn:Hstage.
  cbn [fst] in Hrender. subst c.
  destruct (render_stage_results _ _ _ _ _ _ _ Hstage) as (Hp & Hi & _).
  assert (Hempty : products = []).
  { rewrite Hp. unfold productInfo. now apply productInfo_with_none. }
  eexists. split; [apply answer_of_fst; exact Hrun |].
  cbn. rewrite Hempty, Hi.
  repeat split. apply htmlLength_positive.
Qed.

Lemma C5_witness :
  exists r,
    answer (Samples.steady Samples.empty_catalogue "Pistones Pro-X")
      (Normal Samples.honda) = Some r
    /\ status r = 200
    /\ field_products r = Some []
    /\ field_scrapingError r = None
    /\ field_error r = None
    /\ field_pageInfo r = Some (pageContent Samples.empty_catalogue)
    /\ 0 < htmlLength (pageContent Samples.empty_catalogue)
    /\ field_description r = Some "Pistones Pro-X"
    /\ field_url r = Some (body_url Samples.honda).
Proof.
  apply (C5_zero_products_is_success
           (Samples.steady Samples.empty_catalogue "Pistones Pro-X")
           Samples.honda [] (pageContent Samples.empty_catalogue)
           Samples.markup "Pistones Pro-X").
  - split; discriminate.
  - repeat split; reflexivity.
  - repeat split; reflexivity.
  - vm_compute. reflexivity.
  - reflexivity.
  - reflexivity.
  - reflexivity.
  - reflexivity.
  - reflexivity.
Defined.

(** C5 as first stated fails when synthesis does: the page renders,
    neither tier matches, and the backend is down.  The answer is the
    hard failure, with no products list at all. *)
Lemma C5_counterexample :
  render_succeeds (Samples.backend_down Samples.empty_catalogue)
    (body_url Samples.honda) [] (pageContent Samples.empty_catalogue)
    Samples.markup
  /\ querySelectorAll Samples.empty_catalogue sel_product = []
  /\ querySelectorAll Samples.empty_catalogue sel_alternative = []
  /\ option_map status
       (answer (Samples.backend_down Samples.empty_catalogue)
          (Normal Samples.honda)) = Some 500
  /\ option_map field_products
       (answer (Samples.backend_down Samples.empty_catalogue)
          (Normal Samples.honda)) = Some None.
Proof. vm_compute. repeat split; reflexivity. Qed.

(** When the backend is down, no answer carries a description. *)
Lemma backend_unavailable_hard_failure (w : World)
    (request : Completion Js.Value) :
  backend_unavailable w ->
  exists details, answer w request = Some (HardFailure error_message details).
Proof.
  intros Hdown.
  assert (Hnever : forall description, ~ backend_replied w description).
  { intros description (m & u & n & p & Hmodel & Hrespond).
    destruct Hdown as [Hdown | Hdown].
    - destruct (Hdown m) as [e He]. congruence.
    - destruct (Hdown n p) as [e He]. congruence. }
  destruct (run_returns w request) as [r Hr].
  destruct (run_inv w request r Hr)
    as [(details & ->) | [(body & dsc & e & _ & Hreplied & _)
                         | (body & dsc & html & _ & Hreplied & _)]].
  - exists details. now apply answer_of_fst.
  - destruct (Hnever dsc Hreplied).
  - destruct (Hnever dsc Hreplied).
Qed.

(** A synthesis error on the success branch does not end the request:
    it is caught by the [catch] meant for scraping errors.  When the
    page has rendered, the first prompt throws and the calls of the
    fallback block return, the answer is the degraded one, with the text
    of the synthesis error as [errorDetails]. *)
Lemma synthesis_error_is_rerouted (w : World) (body : Js.Value)
    (products : list ProductRecord) (info : PageContent)
    (htmlContent reply : string) (e : Js.Thrown) :
  destructurable body ->
  interpolable body ->
  acquisition_succeeds w ->
  render_succeeds w (body_url body) products info htmlContent ->
  w_close w 0 = Normal tt ->
  w_llm_model w 0 = Normal tt ->
  w_respond w 0 (enriched_prompt body products info) = Throw e ->
  w_close w 1 = Normal tt ->
  w_llm_model w 1 = Normal tt ->
  w_respond w 1 (fallback_prompt body) = Normal reply ->
  answer w (Normal body)
  = Some (Degraded reply (Js.error_text e) (body_url body)).
Proof.
  intros Hbody Hprint Hacq Hrender Hclose Hmodel Hrespond Hclose' Hmodel'
    Hrespond'.
  unfold answer, run. rewrite (POST_staged w body [] Hbody Hprint). cbv zeta.
  rewrite (acquire_ok w Hacq). fold (body_url body).
  unfold render_succeeds in Hrender.
  destruct (render_stage_counts w (body_url body)) as (Hc & Hm & Hr).
  destruct (render_stage w (body_url body) acquired) as [c t1].
  cbn [fst snd] in *. subst c.
  rewrite (close_and_describe_respond_throws w _ _ _ _ _ _ t1 e);
    [| exact Hprint | rewrite Hc; exact Hclose | rewrite Hm; exact Hmodel
     | rewrite Hr; exact Hrespond].
  unfold fallback_stage.
  rewrite (close_and_describe_returns w _ _ _ _ _ _ _ reply).
  - reflexivity.
  - exact Hprint.
  - rewrite calls_app, Hc. exact Hclose'.
  - rewrite calls_app, Hm. exact Hmodel'.
  - rewrite calls_app, Hr. exact Hrespond'.
Qed.

(** C1 at its failing input.  The page renders, the products are
    extracted, and the first call to the backend throws.  The request
    does not end there: the inner [catch] takes the synthesis error for a
    scraping error, closes the browser again and asks the backend a
    second time; when that call replies, the answer has status 200 and
    the degraded shape, with [scrapingError] true and the backend's error
    as [errorDetails].  (A reply with empty content is no error for the
    code either: the answer is a success with an empty description.) *)
Theorem C1_synthesis_error_answered_as_scraping_error :
  (render_succeeds (Samples.backend_hiccup Samples.two_cards "Pistones Pro-X")
     (body_url Samples.honda) (productInfo Samples.two_cards)
     (pageContent Samples.two_cards) Samples.markup
   /\ w_respond (Samples.backend_hiccup Samples.two_cards "Pistones Pro-X") 0
        (enriched_prompt Samples.honda (productInfo Samples.two_cards)
           (pageContent Samples.two_cards))
      = Throw Samples.refused
   /\ answer (Samples.backend_hiccup Samples.two_cards "Pistones Pro-X")
        (Normal Samples.honda)
      = Some (Degraded "Pistones Pro-X" "connect ECONNREFUSED 127.0.0.1:1234"
                Samples.honda_url)
   /\ option_map status
        (answer (Samples.backend_hiccup Samples.two_cards "Pistones Pro-X")
           (Normal Samples.honda)) = Some 200
   /\ option_map field_scrapingError
        (answer (Samples.backend_hiccup Samples.two_cards "Pistones Pro-X")
           (Normal Samples.honda)) = Some (Some true)
   /\ calls is_respond
        (trace_of (Samples.backend_hiccup Samples.two_cards "Pistones Pro-X")
           (Normal Samples.honda)) = 2)
  /\ (option_map status
        (answer (Samples.steady Samples.two_cards EmptyString)
           (Normal Samples.honda)) = Some 200
      /\ option_map field_description
           (answer (Samples.steady Samples.two_cards EmptyString)
              (Normal Samples.honda)) = Some (Some EmptyString)).
Proof. vm_compute. repeat split; reflexivity. Qed.

(** ** The calls to [browser.close] *)

(** The fallback block closes the browser once more, whatever follows. *)
Lemma fallback_stage_closes (w : World) (year make model : Js.Value)
    (url : string) (e : Js.Thrown) (t : Trace) :
  calls is_close (snd (fallback_stage w year make model url e t))
  = calls is_close t + 1.
Proof.
  unfold_handler. printable_cases.
  all: repeat (next_answer; cbn [fst snd]);
    rewrite !calls_snoc; cbn [is_close]; lia.
Qed.

(** When the page has rendered and the first synthesis throws, line 112
    has closed the browser and line 137 closes it again. *)
Lemma closed_twice_when_synthesis_throws (w : World) (body : Js.Value)
    (products : list ProductRecord) (info : PageContent) (htmlContent : string)
    (e : Js.Thrown) :
  destructurable body ->
  interpolable body ->
  acquisition_succeeds w ->
  render_succeeds w (body_url body) products info htmlContent ->
  w_close w 0 = Normal tt ->
  synthesis_throws w (enriched_prompt body products info) e ->
  calls is_close (trace_of w (Normal body)) = 2.
Proof.
  intros Hbody Hprint Hacq Hrender Hclose Hsyn.
  unfold trace_of, run. rewrite (POST_staged w body [] Hbody Hprint). cbv zeta.
  rewrite (acquire_ok w Hacq). fold (body_url body).
  unfold render_succeeds in Hrender.
  destruct (render_stage_counts w (body_url body)) as (Hc & Hm & Hr).
  destruct (render_stage w (body_url body) acquired) as [c t1].
  cbn [fst snd] in *. subst c.
  destruct Hsyn as [Hmodel | [Hmodel Hrespond]].
  - rewrite (close_and_describe_model_throws w _ _ _ _ _ _ t1 e);
      [| rewrite Hc; exact Hclose | rewrite Hm; exact Hmodel].
    rewrite fallback_stage_closes, calls_app, Hc. reflexivity.
  - rewrite (close_and_describe_respond_throws w _ _ _ _ _ _ t1 e);
      [| exact Hprint | rewrite Hc; exact Hclose | rewrite Hm; exact Hmodel
       | rewrite Hr; exact Hrespond].
    rewrite fallback_stage_closes, calls_app, Hc. reflexivity.
Qed.

(** When the browser has started and no context or page can be had, the
    outer [catch] answers and the browser is never closed. *)
Lemma never_closed_when_acquisition_throws (w : World) (body : Js.Value)
    (e : Js.Thrown) :
  destructurable body ->
  interpolable body ->
  w_launch w = Normal tt ->
  w_newContext w = Throw e
  \/ (w_newContext w = Normal tt /\ w_newPage w = Throw e) ->
  calls is_launch (trace_of w (Normal body)) = 1
  /\ calls is_close (trace_of w (Normal body)) = 0
  /\ answer w (Normal body)
     = Some (HardFailure error_message (Js.error_text e)).
Proof.
  intros Hbody Hprint Hlaunch Hthrows.
  unfold answer, trace_of, run. rewrite (POST_staged w body [] Hbody Hprint).
  cbv zeta.
  unfold acquire, launch, newContext, newPage, bind, call.
  rewrite Hlaunch.
  destruct Hthrows as [Hc | [Hc Hp]].
  - rewrite Hc. repeat split.
  - rewrite Hc, Hp. repeat split.
Qed.

(** C3 at its failing inputs.  The page renders and the backend is down:
    [browser.close] is called twice, once on line 112 and once more on
    line 137.  The browser starts and [newContext] throws: the outer
    [catch] answers and [browser.close] is never called.  On the plain
    success and render-failure runs it is called once. *)
Theorem C3_close_calls_at_failing_inputs :
  (calls is_launch
     (trace_of (Samples.backend_down Samples.two_cards) (Normal Samples.honda)) = 1
   /\ calls is_close
        (trace_of (Samples.backend_down Samples.two_cards) (Normal Samples.honda))
      = 2)
  /\ (calls is_launch (trace_of Samples.no_context (Normal Samples.honda)) = 1
      /\ calls is_close (trace_of Samples.no_context (Normal Samples.honda)) = 0)
  /\ calls is_close
       (trace_of (Samples.steady Samples.two_cards "Pistones Pro-X")
          (Normal Samples.honda)) = 1
  /\ calls is_close
       (trace_of (Samples.navigation_timeout "Pistones Pro-X")
          (Normal Samples.honda)) = 1.
Proof. vm_compute. repeat split; reflexivity. Qed.

(** * Further properties of the code *)

(** ** The handler, call by call *)

(** X1. The handler answers every request: whatever the request and
    whatever the collaborators throw, [POST] returns a response and lets
    no exception out. *)
Theorem X1_handler_always_answers (w : World) (request : Completion Js.Value) :
  exists r, answer w request = Some r.
Proof.
  destruct (run_returns w request) as [r Hr].
  exists r. now apply answer_of_fst.
Qed.

(** X2. A success answer pins down the whole run.  The calls are, in
    this order and each once: launch, new context, new page, navigation
    to the URL of the body, the wait for network idle, two evaluations,
    the read of the markup, the close of the browser, the fetch of the
    model and one prompt, which is the enriched prompt built from the
    products and the page info of the answer; the description is the
    backend's reply to it. *)
Theorem X2_success_pins_the_run (w : World) (request : Completion Js.Value)
    (description : string) (products : list ProductRecord) (info : PageContent)
    (url htmlPreview : string) :
  answer w request = Some (Success description products info url htmlPreview) ->
  exists body,
    request = Normal body
    /\ url = body_url body
    /\ trace_of w request
       = [Launch; NewContext; NewPage; Goto url 30000;
          WaitForLoadState "networkidle"; Evaluate; Evaluate; Content; Close;
          LlmModel model_name; Respond (enriched_prompt body products info)]
    /\ w_respond w 0 (enriched_prompt body products info) = Normal description.
Proof.
  unfold answer, trace_of, run. destruct request as [body | e].
  2:{ cbn. discriminate. }
  intros H. exists body. revert H.
  run_cases_with destructure_cases body; intros H; inversion H; subst; clear H.
  split; [reflexivity |]. split; [reflexivity |]. split; [reflexivity |].
  match goal with
  | Hr : w_respond w _ _ = Normal _ |- _ => exact Hr
  end.
Qed.

(** X3. A degraded answer always ends the same way: the last three
    calls are the close of the browser, the fetch of the model and the
    fallback prompt, which names no product and no page text; the
    description is the backend's reply to that prompt, the URL is the one
    built from the body, and the backend had been asked at most once
    before. *)
Theorem X3_degraded_comes_from_the_fallback_prompt (w : World)
    (request : Completion Js.Value) (description details url : string) :
  answer w request = Some (Degraded description details url) ->
  exists body t,
    request = Normal body
    /\ url = body_url body
    /\ trace_of w request
       = (t ++ [Close; LlmModel model_name; Respond (fallback_prompt body)])%list
    /\ calls is_respond t <= 1
    /\ w_respond w (calls is_respond t) (fallback_prompt body)
       = Normal description.
Proof.
  unfold answer, trace_of, run. destruct request as [body | e].
  2:{ cbn. discriminate. }
  intros H. exists body. revert H.
  run_cases_with destructure_cases body; intros H; inversion H; subst; clear H;
    match goal with
    | |- exists t, _ /\ _ /\ ?tr = _ /\ _ =>
        exists (firstn (length tr - 3) tr)
    end;
    (split; [reflexivity |]); (split; [reflexivity |]);
    (split; [reflexivity |]); (split; [unfold calls; cbn; lia |]);
    match goal with
    | Hr : w_respond w _ _ = Normal _ |- _ => exact Hr
    end.
Qed.

(** X4. The handler retries nothing but the synthesis.  In one request
    the browser is launched at most once, the page is navigated at most
    once and its markup read at most once, the page functions are
    evaluated at most twice, and the browser is closed, the model fetched
    and the backend prompted at most twice each. *)
Theorem X4_call_bounds (w : World) (request : Completion Js.Value) :
  calls is_launch (trace_of w request) <= 1
  /\ calls is_goto (trace_of w request) <= 1
  /\ calls is_evaluate (trace_of w request) <= 2
  /\ calls is_content (trace_of w request) <= 1
  /\ calls is_close (trace_of w request) <= 2
  /\ calls is_llm_model (trace_of w request) <= 2
  /\ calls is_respond (trace_of w request) <= 2.
Proof.
  unfold trace_of, run.
  destruct request as [body | e]; [| unfold calls; cbn; lia].
  run_cases_with destructure_cases body; unfold calls; cbn; lia.
Qed.

(** What the left-to-right reading says of each call of a trace. *)
Lemma page_before_close_before_backend_spec (closed : bool) (t : Trace) :
  page_before_close_before_backend closed t = true ->
  forall t1 ev t2,
    t = (t1 ++ ev :: t2)%list ->
    (is_backend_call ev = true -> closed = true \/ 1 <= calls is_close t1)
    /\ (is_page_call ev = true -> closed = false /\ calls is_close t1 = 0).
Proof.
  revert closed. induction t as [| a t IH]; intros closed Hok t1 ev t2 Heq.
  - destruct t1; discriminate.
  - cbn [page_before_close_before_backend] in Hok.
    apply andb_true_iff in Hok as [Hhead Hrest].
    apply andb_true_iff in Hhead as [Hpage Hback].
    destruct t1 as [| b t1]; cbn [app] in Heq; inversion Heq; subst; clear Heq.
    + split; intros Hev.
      * rewrite Hev in Hback. left. exact Hback.
      * rewrite Hev in Hpage. split; [| reflexivity].
        destruct closed; [discriminate | reflexivity].
    + destruct (IH _ Hrest t1 ev t2 eq_refl) as [Hb Hp].
      unfold calls in *. cbn [filter].
      split; intros Hev.
      * destruct (Hb Hev) as [Hc | Hc].
        -- apply orb_true_iff in Hc as [Hc | Hc]; [left; exact Hc |].
           right. rewrite Hc. cbn [length]. lia.
        -- right. destruct (is_close b); cbn [length]; lia.
      * destruct (Hp Hev) as [Hc Hn].
        apply orb_false_iff in Hc as [Hc Hb'].
        rewrite Hb'. split; assumption.
Qed.

(** X5. The page and the backend are never in use together.  Whatever
    call of a request one looks at: a call to the backend (model fetch or
    prompt) comes after a call to [browser.close], and a call on the page
    (navigation, wait, evaluation, markup) comes before any. *)
Theorem X5_page_first_backend_after_close (w : World)
    (request : Completion Js.Value) (t1 t2 : Trace) (ev : Event) :
  trace_of w request = (t1 ++ ev :: t2)%list ->
  (is_backend_call ev = true -> 1 <= calls is_close t1)
  /\ (is_page_call ev = true -> calls is_close t1 = 0).
Proof.
  intros Heq.
  assert (Hok : page_before_close_before_backend false (trace_of w request) = true).
  { unfold trace_of, run.
    destruct request as [body | e]; [| reflexivity].
    run_cases_with destructure_cases body; reflexivity. }
  destruct (page_before_close_before_backend_spec false _ Hok t1 ev t2 Heq)
    as [Hb Hp].
  split; intros Hev.
  - destruct (Hb Hev) as [Hc | Hc]; [discriminate | exact Hc].
  - exact (proj2 (Hp Hev)).
Qed.

(** ** The extraction functions, further *)

Lemma trimStart_head (s : string) (c : ascii) (r : string) :
  Js.trimStart s = String c r -> Js.is_white_space c = false.
Proof.
  induction s as [| a s IH]; cbn [Js.trimStart]; [discriminate |].
  destruct (Js.is_white_space a) eqn:Ha; [exact IH |].
  intros H. inversion H. subst. exact Ha.
Qed.

Lemma trimEnd_head (c : ascii) (r : string) :
  Js.is_white_space c = false ->
  Js.trimEnd (String c r) = String c (Js.trimEnd r).
Proof. intros H. cbn [Js.trimEnd]. rewrite H. reflexivity. Qed.

Lemma trimEnd_last (s : string) (c : ascii) :
  last_char (Js.trimEnd s) = Some c -> Js.is_white_space c = false.
Proof.
  induction s as [| a s IH]; cbn [Js.trimEnd]; [discriminate |].
  destruct (Js.is_white_space a) eqn:Ha;
    destruct (Js.trimEnd s) as [| b u] eqn:Hu; cbn [andb Js.is_empty].
  - discriminate.
  - exact IH.
  - cbn. intros H. inversion H. subst. exact Ha.
  - exact IH.
Qed.

(** What [trim] returns neither starts nor ends with white space. *)
Lemma trim_no_outer_space (s : string) : no_outer_space (Js.trim s) = true.
Proof.
  unfold no_outer_space, Js.trim. apply andb_true_iff. split.
  - destruct (Js.trimStart s) as [| c r] eqn:Hs; [reflexivity |].
    pose proof (trimStart_head s c r Hs) as Hc.
    rewrite (trimEnd_head c r Hc), Hc. reflexivity.
  - destruct (last_char (Js.trimEnd (Js.trimStart s))) as [c |] eqn:Hl;
      [| reflexivity].
    rewrite (trimEnd_last _ c Hl). reflexivity.
Qed.

Lemma trimmed_text_no_outer_space (q : option Located) :
  no_outer_space (trimmed_text q) = true.
Proof.
  unfold trimmed_text. destruct q as [e |]; [| reflexivity].
  cbn [option_map Js.or_else].
  destruct (Js.is_empty (Js.trim (textContent (self e)))); [reflexivity |].
  apply trim_no_outer_space.
Qed.

Lemma productInfo_with_records (q : SelectorList -> list Located)
    (p : ProductRecord) :
  In p (productInfo_with q) ->
  exists product, p = extract_product product \/ p = extract_alternative product.
Proof.
  unfold productInfo_with.
  destruct (length (q sel_product) =? 0)%nat;
    [destruct (0 <? length (q sel_alternative))%nat |];
    intros Hin; apply in_map_iff in Hin as (product & <- & _);
    exists product; auto.
Qed.

(** X6. Every text that the extraction returns is trimmed: the title and
    the price of every product record, and the description, the
    breadcrumbs and the title of the page info, neither start nor end
    with white space (an element holding only white space gives the
    empty string). *)
Theorem X6_extracted_texts_are_trimmed (d : Document) :
  (forall p, In p (productInfo d) ->
             no_outer_space (title p) = true /\ no_outer_space (price p) = true)
  /\ no_outer_space (pc_description (pageContent d)) = true
  /\ no_outer_space (pc_breadcrumbs (pageContent d)) = true
  /\ no_outer_space (pc_title (pageContent d)) = true.
Proof.
  split; [| repeat split; apply trimmed_text_no_outer_space].
  intros p Hin. unfold productInfo in Hin.
  destruct (productInfo_with_records _ p Hin) as [product [-> | ->]];
    split; apply trimmed_text_no_outer_space.
Qed.

(** X7. The first alternative of the secondary selector is dead: an
    element under [.products .product] is a [.product], so it is only
    looked for when there is none.  When nothing matches the primary
    selector, the records are exactly the secondary extraction over the
    list items under [ul.products], and the list is empty exactly when
    there is no such item. *)
Theorem X7_secondary_tier_is_list_items (d : Document) :
  querySelectorAll d sel_product = [] ->
  productInfo d = map extract_alternative (querySelectorAll d sel_list_items)
  /\ (productInfo d = [] <-> querySelectorAll d sel_list_items = []).
Proof.
  intros Hnil.
  assert (Heq : productInfo d
                = map extract_alternative (querySelectorAll d sel_list_items)).
  { unfold sel_list_items. rewrite <- (alternative_is_list_items d Hnil).
    unfold productInfo.
    destruct (querySelectorAll d sel_alternative) as [| e es] eqn:Halt.
    - now apply productInfo_with_none.
    - rewrite <- Halt. apply productInfo_with_secondary; [exact Hnil |].
      rewrite Halt. discriminate. }
  split; [exact Heq |].
  rewrite Heq. split.
  - intros Hmap. apply map_eq_nil in Hmap. exact Hmap.
  - intros ->. reflexivity.
Qed.

(** ** The URL, further *)

Lemma append_inj_l (p a b : string) : p ++ a = p ++ b -> a = b.
Proof.
  induction p as [| c p IH]; cbn [String.append]; intros H; [exact H |].
  inversion H. auto.
Qed.

(** Two texts without a slash, each followed by a slash: the texts and
    what follows are the same. *)
Lemma split_at_slash (a b r r' : string) :
  slash_free a = true ->
  slash_free b = true ->
  a ++ String "/" r = b ++ String "/" r' ->
  a = b /\ r = r'.
Proof.
  revert b. induction a as [| c a IH]; intros [| c' b] Ha Hb H;
    cbn [String.append] in H.
  - inversion H. auto.
  - inversion H; subst. cbn in Hb. discriminate.
  - inversion H; subst. cbn in Ha. discriminate.
  - inversion H; subst.
    cbn [slash_free] in Ha, Hb.
    apply andb_true_iff in Ha as [_ Ha]. apply andb_true_iff in Hb as [_ Hb].
    destruct (IH b Ha Hb H2) as [-> ->]. auto.
Qed.

(** X8. For fields without a slash the URL tells the query: two queries
    with the same URL have the same year, make and model.  Without that
    condition it does not, since the texts are copied as they are: a
    slash in a field can shift the boundary between two segments. *)
Theorem X8_url_tells_the_query_without_slashes :
  (forall year make model year' make' model' : string,
     slash_free year = true -> slash_free make = true ->
     slash_free model = true ->
     slash_free year' = true -> slash_free make' = true ->
     slash_free model' = true ->
     query_url year make model = query_url year' make' model' ->
     year = year' /\ make = make' /\ model = model')
  /\ (query_url "2022/mk-honda" "crf" "250" = query_url "2022" "honda/mk-crf" "250"
      /\ "2022/mk-honda" <> "2022").
Proof.
  split; [| split; [reflexivity | discriminate]].
  intros y m d y' m' d' Hy Hm Hd Hy' Hm' Hd' H.
  change (query_url y m d)
    with ("https://www.pro-x.com/product-category/engine/pistons-piston-components/piston-kits/yr-"
          ++ (y ++ String "/" ("mk-" ++ (m ++ String "/" ("ml-" ++ (d ++ String "/" EmptyString))))))
    in H.
  change (query_url y' m' d')
    with ("https://www.pro-x.com/product-category/engine/pistons-piston-components/piston-kits/yr-"
          ++ (y' ++ String "/" ("mk-" ++ (m' ++ String "/" ("ml-" ++ (d' ++ String "/" EmptyString))))))
    in H.
  apply append_inj_l in H.
  apply split_at_slash in H as [-> H]; trivial.
  apply append_inj_l in H.
  apply split_at_slash in H as [-> H]; trivial.
  apply append_inj_l in H.
  apply split_at_slash in H as [-> _]; trivial.
  auto.
Qed.

Lemma X8_witness :
  slash_free "2022" = true /\ slash_free "honda" = true
  /\ slash_free "crf-250-r" = true
  /\ query_url "2022" "honda" "crf-250-r" = Samples.honda_url
  /\ ("2022" = "2022" /\ "honda" = "honda" /\ "crf-250-r" = "crf-250-r").
Proof.
  repeat (split; [reflexivity |]).
  apply (proj1 X8_url_tells_the_query_without_slashes
           "2022" "honda" "crf-250-r" "2022" "honda" "crf-250-r");
    reflexivity.
Defined.

(** ** The search page *)

(** X9. [updateFormField] changes the field it is given and no other:
    the field reads back the new value, the other fields read as before,
    a second update of the same field replaces the first, and updates of
    two different fields can be made in either order. *)
Theorem X9_updateFormField_laws (f g : Page.Field) (v v' : string)
    (s : Page.FormState) :
  Page.read f (Page.updateFormField f v s) = v
  /\ (f <> g -> Page.read g (Page.updateFormField f v s) = Page.read g s)
  /\ Page.updateFormField f v' (Page.updateFormField f v s)
     = Page.updateFormField f v' s
  /\ (f <> g ->
      Page.updateFormField f v (Page.updateFormField g v' s)
      = Page.updateFormField g v' (Page.updateFormField f v s)).
Proof.
  destruct f, g; cbn; repeat split; intros H; try reflexivity; congruence.
Qed.

Lemma X9_witness :
  Page.Year <> Page.Model
  /\ Page.read Page.Model
       (Page.updateFormField Page.Year "2021" Page.INITIAL_FORM_STATE)
     = "crf-250-r"
  /\ Page.updateFormField Page.Year "2021"
       (Page.updateFormField Page.Model "yz-450-f" Page.INITIAL_FORM_STATE)
     = Page.updateFormField Page.Model "yz-450-f"
         (Page.updateFormField Page.Year "2021" Page.INITIAL_FORM_STATE).
Proof.
  assert (H : Page.Year <> Page.Model) by discriminate.
  destruct (X9_updateFormField_laws Page.Year Page.Model "2021" "yz-450-f"
              Page.INITIAL_FORM_STATE) as (_ & Hother & _ & Hcomm).
  split; [exact H |]. split; [exact (Hother H) | exact (Hcomm H)].
Defined.



(** X11. What the user sees after a search, for every behaviour of the
    collaborators.  The handler answers, the page stops loading and keeps
    the form, and the result is: for a success answer its description,
    products, page info and URL with no error; for a degraded answer its
    description and URL, no products, and the error text that starts with
    [Error durante el scraping: ]; for a hard failure nothing but the
    stock error text, whatever the details were.  So the error text is
    empty exactly when the answer is a success. *)
Theorem X11_what_the_user_sees (w : World) (s : Page.State) :
  exists r,
    answer w (Normal (query_body (Page.year (Page.formState s))
                        (Page.make (Page.formState s))
                        (Page.model (Page.formState s)))) = Some r
    /\ Page.search w s = Page.state (Page.formState s) false (shown r)
    /\ (Page.error (Page.result (Page.search w s)) = EmptyString
        <-> field_products r <> None).
Proof.
  set (request := Normal (query_body (Page.year (Page.formState s))
                            (Page.make (Page.formState s))
                            (Page.model (Page.formState s)))).
  destruct (run_returns w request) as [r Hr].
  exists r. split; [now apply answer_of_fst |].
  assert (Hsearch : Page.search w s = Page.state (Page.formState s) false (shown r)).
  { unfold Page.search, Page.fetch_scrape. fold request. rewrite Hr.
    destruct (run_inv w request r Hr)
      as [(details & ->) | [(body & dsc & e & _ & _ & ->)
                           | (body & dsc & html & _ & _ & _ & ->)]];
      reflexivity. }
  split; [exact Hsearch |].
  rewrite Hsearch. cbn [Page.result Page.error].
  destruct r as [d p i u h | d e u | e dt]; cbn; split; intros H;
    try discriminate; try congruence.
Qed.

(** X12. The refactored copy of the handler answers as [route.ts] does.
    For every request and every behaviour of the collaborators it makes
    the same calls in the same order and sends the same status and the
    same body. *)
Theorem X12_refactored_copy_answers_alike (w : World)
    (request : Completion Js.Value) (t : Trace) :
  Refactored.POST w request t
  = (match fst (POST w request t) with
     | Normal r => Normal (json_response r)
     | Throw e => Throw e
     end, snd (POST w request t)).
Proof.
  unfold Refactored.POST, Refactored.getLLMModel, Refactored.createErrorResponse,
    Refactored.SCRAPING_TIMEOUT, Refactored.LM_STUDIO_MODEL.
  destruct request as [body | e]; [| reflexivity].
  unfold_handler. unfold model_name.
  destruct (destructure_cases body) as [Hd | Hd]; rewrite Hd;
    unfold ret, throw; cbn [fst snd]; printable_cases; cbn [fst snd];
    repeat (next_answer; cbn [fst snd]); reflexivity.
Qed.

(** X13. The two copies of the search page end a submission in the same
    state.  Whatever [fetch] and the body come to, both stop loading and
    show the same description, products, page info, URL and error text
    (a description that the first copy leaves [undefined] shows as the
    empty one). *)
Theorem X13_two_pages_agree (fetched : Page.Fetched) (s1 : FirstPage.State)
    (s2 : Page.State) :
  FirstPage.result (FirstPage.handleSubmit fetched s1)
  = Page.result (Page.handleSubmit fetched s2)
  /\ FirstPage.loading (FirstPage.handleSubmit fetched s1) = false
  /\ Page.loading (Page.handleSubmit fetched s2) = false.
Proof.
  destruct fetched as [e | ok [data | e]]; [repeat split | | repeat split].
  destruct ok; [| repeat split].
  destruct data as [dsc ps info u hp se ed er dt].
  unfold FirstPage.handleSubmit, FirstPage.store, Page.handleSubmit,
    Page.submit_outcome.
  cbn [negb b_description b_products b_pageInfo b_url b_scrapingError
       b_errorDetails b_error].
  destruct ps, info, u as [[| c u] |], se as [[|] |]; repeat split.
Qed.

(** ** The product list in the prompt *)

Lemma append_assoc_string (a b c : string) : (a ++ b) ++ c = a ++ (b ++ c).
Proof.
  induction a as [| x a IH]; [reflexivity |].
  change (String x ((a ++ b) ++ c) = String x (a ++ (b ++ c))).
  rewrite IH. reflexivity.
Qed.

(** Every escape reads back as the code unit it stands for. *)
Lemma json_unescape_escape (c : ascii) (rest : string) :
  json_unescape_head (Prompt.json_escape c ++ rest) = Some (c, rest).
Proof.
  destruct c as [b0 b1 b2 b3 b4 b5 b6 b7].
  destruct b0, b1, b2, b3, b4, b5, b6, b7; reflexivity.
Qed.

Lemma json_escape_inj (c c' : ascii) (r r' : string) :
  Prompt.json_escape c ++ r = Prompt.json_escape c' ++ r' -> c = c' /\ r = r'.
Proof.
  intros H. apply (f_equal json_unescape_head) in H.
  rewrite !json_unescape_escape in H. inversion H. auto.
Qed.

(** No escape starts with a quote. *)
Lemma json_escape_not_quote (c : ascii) (r r' : string) :
  Prompt.json_escape c ++ r <> quote ++ r'.
Proof.
  change (quote ++ r') with (String (ascii_of_nat 34) r').
  intros H. pose proof (f_equal json_unescape_head H) as Hd.
  rewrite json_unescape_escape in Hd. cbn in Hd. inversion Hd; subst.
  vm_compute in H. discriminate.
Qed.

(** The inside of a JSON string ends at the first quote that is not
    escaped. *)
Lemma json_chars_delimited (s s' r r' : string) :
  Prompt.json_chars s ++ quote ++ r = Prompt.json_chars s' ++ quote ++ r' ->
  s = s' /\ r = r'.
Proof.
  revert s'. induction s as [| c s IH]; intros [| c' s'];
    cbn [Prompt.json_chars]; rewrite ?append_assoc_string; intros H.
  - do 2 apply append_inj_l in H. auto.
  - symmetry in H. destruct (json_escape_not_quote _ _ _ H).
  - destruct (json_escape_not_quote _ _ _ H).
  - apply json_escape_inj in H as [-> H].
    destruct (IH s' H) as [-> ->]. auto.
Qed.

Lemma json_string_delimited (s s' r r' : string) :
  Prompt.json_string s ++ r = Prompt.json_string s' ++ r' -> s = s' /\ r = r'.
Proof.
  unfold Prompt.json_string. rewrite !append_assoc_string. intros H.
  apply append_inj_l in H.
  now apply json_chars_delimited.
Qed.

Lemma json_product_delimited (p p' : ProductRecord) (r r' : string) :
  Prompt.json_product p ++ r = Prompt.json_product p' ++ r' -> p = p' /\ r = r'.
Proof.
  destruct p as [t c u], p' as [t' c' u'].
  unfold Prompt.json_product. cbn [title price imageUrl].
  rewrite !append_assoc_string. intros H.
  apply append_inj_l in H.
  apply json_string_delimited in H as [_ H]. apply append_inj_l in H.
  apply json_string_delimited in H as [-> H]. apply append_inj_l in H.
  apply json_string_delimited in H as [_ H]. apply append_inj_l in H.
  apply json_string_delimited in H as [-> H]. apply append_inj_l in H.
  apply json_string_delimited in H as [_ H]. apply append_inj_l in H.
  apply json_string_delimited in H as [-> H]. apply append_inj_l in H.
  auto.
Qed.

Lemma json_product_head (p : ProductRecord) (r : string) :
  exists rest, Prompt.json_product p ++ r = String "{" rest.
Proof. eexists. reflexivity. Qed.

(** The text of a non-empty list: its first record, then the end of the
    array or a comma and the text of the rest. *)
Lemma join_products_cons (p : ProductRecord) (ps : list ProductRecord) :
  Js.join "," (map Prompt.json_product (p :: ps)) ++ "]"
  = Prompt.json_product p
    ++ match ps with
       | [] => "]"
       | _ :: _ => "," ++ (Js.join "," (map Prompt.json_product ps) ++ "]")
       end.
Proof.
  destruct ps as [| q qs]; cbn [map Js.join]; [reflexivity |].
  rewrite !append_assoc_string. reflexivity.
Qed.

Lemma join_products_inj (ps ps' : list ProductRecord) :
  Js.join "," (map Prompt.json_product ps) ++ "]"
  = Js.join "," (map Prompt.json_product ps') ++ "]" ->
  ps = ps'.
Proof.
  revert ps'. induction ps as [| p ps IH]; intros [| p' ps'] H.
  - reflexivity.
  - rewrite join_products_cons in H.
    destruct (json_product_head p'
                match ps' with
                | [] => "]"
                | _ :: _ => "," ++ (Js.join "," (map Prompt.json_product ps') ++ "]")
                end) as [y Hy].
    rewrite Hy in H. discriminate.
  - rewrite join_products_cons in H.
    destruct (json_product_head p
                match ps with
                | [] => "]"
                | _ :: _ => "," ++ (Js.join "," (map Prompt.json_product ps) ++ "]")
                end) as [y Hy].
    rewrite Hy in H. discriminate.
  - rewrite !join_products_cons in H.
    apply json_product_delimited in H as [-> H].
    destruct ps as [| q qs], ps' as [| q' qs']; try discriminate.
    + reflexivity.
    + apply append_inj_l in H. rewrite (IH _ H). reflexivity.
Qed.

(** X14. The product list can be read back from the prompt.
    [JSON.stringify] writes two different lists as two different texts,
    whatever quotes, backslashes, brackets or control characters the
    titles, prices and image URLs hold; so for one query and one page
    text, two enriched prompts are equal only if their product lists
    are. *)
Theorem X14_prompt_tells_the_products (ps ps' : list ProductRecord) :
  (Prompt.stringify ps = Prompt.stringify ps' -> ps = ps')
  /\ (forall (year make model : Js.Value) (hint : Prompt.PageHint),
        Prompt.enhancedPrompt year make model ps hint false
        = Prompt.enhancedPrompt year make model ps' hint false ->
        ps = ps').
Proof.
  assert (Hinj : Prompt.stringify ps = Prompt.stringify ps' -> ps = ps').
  { unfold Prompt.stringify. intros H. apply append_inj_l in H.
    now apply join_products_inj. }
  split; [exact Hinj |].
  intros year make model hint H. apply Hinj.
  unfold Prompt.enhancedPrompt in H.
  do 12 (apply append_inj_l in H).
  exact H.
Qed.

(** ** The further properties at sample inputs *)

Lemma X2_witness :
  answer (Samples.steady Samples.two_cards "Pistones Pro-X") (Normal Samples.honda)
  = Some (Success "Pistones Pro-X" (productInfo Samples.two_cards)
            (pageContent Samples.two_cards) Samples.honda_url
            (preview Samples.markup))
  /\ exists body,
       Normal Samples.honda = Normal body
       /\ Samples.honda_url = body_url body
       /\ trace_of (Samples.steady Samples.two_cards "Pistones Pro-X")
            (Normal Samples.honda)
          = [Launch; NewContext; NewPage; Goto Samples.honda_url 30000;
             WaitForLoadState "networkidle"; Evaluate; Evaluate; Content; Close;
             LlmModel model_name;
             Respond (enriched_prompt body (productInfo Samples.two_cards)
                        (pageContent Samples.two_cards))]
       /\ w_respond (Samples.steady Samples.two_cards "Pistones Pro-X") 0
            (enriched_prompt body (productInfo Samples.two_cards)
               (pageContent Samples.two_cards))
          = Normal "Pistones Pro-X".
Proof.
  assert (H : answer (Samples.steady Samples.two_cards "Pistones Pro-X")
                (Normal Samples.honda)
              = Some (Success "Pistones Pro-X" (productInfo Samples.two_cards)
                        (pageContent Samples.two_cards) Samples.honda_url
                        (preview Samples.markup)))
    by (vm_compute; reflexivity).
  split; [exact H |].
  exact (X2_success_pins_the_run _ _ _ _ _ _ _ H).
Defined.

Lemma X3_witness :
  answer (Samples.navigation_timeout "Pistones Pro-X") (Normal Samples.honda)
  = Some (Degraded "Pistones Pro-X" "page.goto: Timeout 30000ms exceeded."
            Samples.honda_url)
  /\ exists body t,
       Normal Samples.honda = Normal body
       /\ Samples.honda_url = body_url body
       /\ trace_of (Samples.navigation_timeout "Pistones Pro-X")
            (Normal Samples.honda)
          = (t ++ [Close; LlmModel model_name; Respond (fallback_prompt body)])%list
       /\ calls is_respond t <= 1
       /\ w_respond (Samples.navigation_timeout "Pistones Pro-X")
            (calls is_respond t) (fallback_prompt body)
          = Normal "Pistones Pro-X".
Proof.
  assert (H : answer (Samples.navigation_timeout "Pistones Pro-X")
                (Normal Samples.honda)
              = Some (Degraded "Pistones Pro-X"
                        "page.goto: Timeout 30000ms exceeded." Samples.honda_url))
    by (vm_compute; reflexivity).
  split; [exact H |].
  exact (X3_degraded_comes_from_the_fallback_prompt _ _ _ _ _ H).
Defined.

Lemma X5_witness :
  trace_of (Samples.navigation_timeout "Pistones Pro-X") (Normal Samples.honda)
  = ([Launch; NewContext; NewPage; Goto Samples.honda_url 30000; Close]
     ++ LlmModel model_name :: [Respond (fallback_prompt Samples.honda)])%list
  /\ is_backend_call (LlmModel model_name) = true
  /\ 1 <= calls is_close
            [Launch; NewContext; NewPage; Goto Samples.honda_url 30000; Close].
Proof.
  assert (H : trace_of (Samples.navigation_timeout "Pistones Pro-X")
                (Normal Samples.honda)
              = ([Launch; NewContext; NewPage; Goto Samples.honda_url 30000; Close]
                 ++ LlmModel model_name
                    :: [Respond (fallback_prompt Samples.honda)])%list)
    by (vm_compute; reflexivity).
  split; [exact H |]. split; [reflexivity |].
  exact (proj1 (X5_page_first_backend_after_close _ _ _ _ _ H) eq_refl).
Defined.

Lemma X6_witness :
  In (product_record "Piston Kit A" "$199.00" "/kit.png")
     (productInfo Samples.two_cards)
  /\ no_outer_space "Piston Kit A" = true
  /\ no_outer_space "$199.00" = true.
Proof.
  assert (H : In (product_record "Piston Kit A" "$199.00" "/kit.png")
                (productInfo Samples.two_cards))
    by (left; reflexivity).
  split; [exact H |].
  exact (proj1 (X6_extracted_texts_are_trimmed Samples.two_cards) _ H).
Defined.

Lemma X7_witness :
  querySelectorAll Samples.list_items_only sel_product = []
  /\ productInfo Samples.list_items_only
     = map extract_alternative
         (querySelectorAll Samples.list_items_only sel_list_items)
  /\ productInfo Samples.list_items_only
     = [product_record "Ring Set" "$35.00" EmptyString].
Proof.
  assert (H : querySelectorAll Samples.list_items_only sel_product = [])
    by reflexivity.
  split; [exact H |].
  split; [exact (proj1 (X7_secondary_tier_is_list_items _ H)) | reflexivity].
Defined.

Lemma X11_witness :
  exists r,
    answer Samples.timeout_and_backend_down (Normal Samples.honda) = Some r
    /\ Page.search Samples.timeout_and_backend_down
         (Page.state Page.INITIAL_FORM_STATE false Page.INITIAL_RESULT_STATE)
       = Page.state Page.INITIAL_FORM_STATE false (shown r)
    /\ (Page.error
          (Page.result
             (Page.search Samples.timeout_and_backend_down
                (Page.state Page.INITIAL_FORM_STATE false
                   Page.INITIAL_RESULT_STATE))) = EmptyString
        <-> field_products r <> None).
Proof.
  exact (X11_what_the_user_sees Samples.timeout_and_backend_down
           (Page.state Page.INITIAL_FORM_STATE false Page.INITIAL_RESULT_STATE)).
Defined.

Lemma X14_witness :
  Prompt.stringify (productInfo Samples.two_cards)
  = Prompt.stringify
      [product_record "Piston Kit A" "$199.00" "/kit.png";
       product_record "Piston Kit B" EmptyString "/kit.png"]
  /\ productInfo Samples.two_cards
     = [product_record "Piston Kit A" "$199.00" "/kit.png";
        product_record "Piston Kit B" EmptyString "/kit.png"].
Proof.
  assert (H : Prompt.stringify (productInfo Samples.two_cards)
              = Prompt.stringify
                  [product_record "Piston Kit A" "$199.00" "/kit.png";
                   product_record "Piston Kit B" EmptyString "/kit.png"])
    by (vm_compute; reflexivity).
  split; [exact H |].
  exact (proj1 (X14_prompt_tells_the_products _ _) H).
Defined.
